(** * Atomic swaps on a layer-2 ledger: the client side of the SDK

    A shallow embedding of [src/client.ts] (class [SwapClient]) and of
    [src/utils.ts] ([transpose], [getSignBytes], [getTransactions]), with
    the properties of the five-transaction swap plan and of the party
    state machine.

    Conventions of the embedding:
    - a JavaScript [number] that the code uses as an integer is a [Z];
      an ethers [BigNumber] is a [Z];
    - a property that may be absent from an object, and an array read
      that may be out of range, is an [option] ([None] is [undefined]);
    - a [throw] (and a rejected promise) is the [Throw] outcome of the
      monad [M]; the state reached so far is kept, as in JavaScript;
    - the ledger network, the wallet, the clock and the two-party
      signature primitive are collaborators outside this repository:
      their operations are fields of the records [Env], [Musig] and
      [Base]. *)

From stdpp Require Import gmap strings list.
From Stdlib Require Import DecimalString DecimalZ DecimalPos.

Open Scope string_scope.
Open Scope Z_scope.

(** ** Outcomes and the state-and-exception monad *)

(** What JavaScript code can throw here: [new Error(message)], or the
    [TypeError] of reading a property of [undefined]. *)
Inductive Exn : Type :=
  | Error (message : string)
  | TypeError.

Inductive result (A : Type) : Type :=
  | Ok (a : A)
  | Throw (e : Exn).
Arguments Ok {A} a.
Arguments Throw {A} e.

(** A computation over a mutable state [S]: it ends with a value or with
    an exception, and in both cases leaves a state behind. *)
Definition M (S A : Type) : Type := S -> result A * S.

Definition ret {S A} (a : A) : M S A := fun s => (Ok a, s).

Definition throw {S A} (e : Exn) : M S A := fun s => (Throw e, s).

Definition bind {S A B} (c : M S A) (k : A -> M S B) : M S B :=
  fun s =>
    match c s with
    | (Ok a, s') => k a s'
    | (Throw e, s') => (Throw e, s')
    end.

Definition gets {S A} (f : S -> A) : M S A := fun s => (Ok (f s), s).

Definition modify {S} (f : S -> S) : M S unit := fun s => (Ok tt, f s).

(** A synchronous call that may throw and touches no state. *)
Definition liftR {S A} (r : result A) : M S A := fun s => (r, s).

Notation "'let*' x ':=' c 'in' k" := (bind c (fun x => k))
  (at level 10, x pattern, c at level 100, k at level 200).
Notation "c ';;' k" := (bind c (fun _ => k))
  (at level 100, k at level 200, right associativity).

(** ** [transpose] (utils.ts)

    [matrix[0].map((_, index) => matrix.map((row) => row[index]))].
    [matrix[0]] of an empty matrix is [undefined], and calling [.map] on
    it throws; [row[index]] past the end of a row is [undefined]. *)
Definition transpose {T} (matrix : list (list T)) : result (list (list (option T))) :=
  match matrix !! 0%nat with
  | None => Throw TypeError
  | Some row0 => Ok (imap (fun index _ => (fun row : list T => row !! index) <$> matrix) row0)
  end.

(** The entry at row [i], column [j], as JavaScript reads [m[i][j]]. *)
Definition entry {T} (m : list (list T)) (i j : nat) : option T :=
  m !! i ≫= (fun row => row !! j).

(** A matrix whose rows all have [cols] entries. *)
Definition rectangular {T} (m : list (list T)) (cols : nat) : Prop :=
  Forall (fun row => length row = cols) m.

(** A matrix all of whose entries are defined, seen as a matrix of
    JavaScript values. *)
Definition defined {T} (m : list (list T)) : list (list (option T)) :=
  fmap (M := list) (fmap (M := list) Some) m.

(** The column [i] of a matrix, keeping the reads that are in range, and
    the matrix of the first [cols] columns: the transposed matrix of a
    rectangular one, without the [undefined] wrapper. *)
Definition column {T} (m : list (list T)) (i : nat) : list T :=
  omap (fun row => row !! i) m.

Definition columns {T} (m : list (list T)) (cols : nat) : list (list T) :=
  column m <$> seq 0 cols.

(** ** Data model (types.ts, and the object shapes the code builds) *)

Definition Address := string.
Definition Token := string.
Definition Bytes := list Byte.byte.

(** ['L1' | 'L2']: the layer of a deposit or of the provider's payout. *)
Inductive Layer : Type := L1 | L2.

(** ['COMMIT' | 'VERIFY']: the confirmation level [wait] asks for. *)
Inductive Action : Type := COMMIT | VERIFY.

Module Asset.
(** [{ token, amount }] of [SwapData.sell] and [SwapData.buy]. *)
Record t : Type := mk { token : Token; amount : Z }.
End Asset.

Module Create2.
(** [SwapData.create2]: [{ creator, salt, hash }]. *)
Record t : Type := mk { creator : Address; salt : string; hash : string }.
End Create2.

Module SwapData.
Record t : Type := mk {
  sell : Asset.t;
  buy : Asset.t;
  timeout : Z;
  withdrawType : option Layer;
  create2 : Create2.t
}.
End SwapData.

Inductive SwapState : Type := empty | prepared | signed | deposited | finalized.

#[global] Instance SwapState_eq_dec : EqDecision SwapState.
Proof. solve_decision. Defined.

(** The argument [{ creatorAddress, saltArg, codeHash }] of
    [zksync.utils.getCREATE2AddressAndSalt]. *)
Module CREATE2Data.
Record t : Type := mk { creatorAddress : Address; saltArg : string; codeHash : string }.
End CREATE2Data.

(** [{ salt, address }], what [getCREATE2AddressAndSalt] returns. *)
Module Create2Info.
Record t : Type := mk { salt : string; address : Address }.
End Create2Info.

(** [ethAuthData] of a ChangePubKey:
    [{ type, creatorAddress, saltArg, codeHash }]. *)
Module EthAuthData.
Record t : Type := mk {
  type : string;
  creatorAddress : Address;
  saltArg : string;
  codeHash : string
}.
End EthAuthData.

(** What signing attaches to a transaction. *)
Module TxSignature.
Record t : Type := mk { pubKey : Bytes; signature : Bytes }.
End TxSignature.

(** A transaction descriptor: the union of the fields of the three object
    literals of [getTransactions]; a field that a literal does not have
    is [None]. *)
Module Tx.
Record t : Type := mk {
  type : string;
  accountId : Z;
  account : option Address;
  newPkHash : option string;
  tokenId : option Z;
  from : option Address;
  to : option Address;
  ethAddress : option Address;
  amount : option Z;
  fee : Z;
  feeTokenId : Z;
  nonce : Z;
  validFrom : Z;
  validUntil : Z;
  ethAuthData : option EthAuthData.t;
  signature : option TxSignature.t
}.

Definition set_signature (sg : option TxSignature.t) (tx : t) : t :=
  mk (type tx) (accountId tx) (account tx) (newPkHash tx) (tokenId tx) (from tx)
     (to tx) (ethAddress tx) (amount tx) (fee tx) (feeTokenId tx) (nonce tx)
     (validFrom tx) (validUntil tx) (ethAuthData tx) sg.
End Tx.

(** The account state the ledger reports: [{ address, id?, committed:
    { balances } }]; a token the account holds nothing of has no entry
    in [balances]. *)
Module AccountState.
Record t : Type := mk {
  address : Address;
  id : option Z;
  committed_balances : gmap string Z
}.
End AccountState.

(** The first argument of [getTransactionFee]: ['Transfer'], ['Withdraw']
    or [{ ChangePubKey: { onchainPubkeyAuth } }]. *)
Inductive FeeKind : Type :=
  | FeeTransfer
  | FeeWithdraw
  | FeeChangePubKey (onchainPubkeyAuth : bool).

(** What the race of [wait] resolves to. The notification resolves with
    whatever the provider hands over: a receipt (an object), or a value
    that is falsy without being [null] ([undefined], [false], [0],
    ['']); the timer resolves with [null], which a notification
    resolving with [null] cannot be told from. *)
Inductive RaceResult : Type :=
  | Receipt (executed : bool)
  | Falsy
  | Null.

(** [if (result)]: an object is truthy; [null] and the other falsy
    values are not. *)
Definition truthy (r : RaceResult) : bool :=
  match r with Receipt _ => true | Falsy => false | Null => false end.

(** [result !== null]: only [null] itself fails the test. *)
Definition not_null (r : RaceResult) : bool :=
  match r with Null => false | Receipt _ => true | Falsy => true end.

(** [a.gt(other)] of an ethers [BigNumber]: [other] is converted first,
    and [undefined] is not a number. *)
Definition BigNumber_gt (a : Z) (other : option Z) : result bool :=
  match other with
  | Some b => Ok (b <? a)
  | None => Throw (Error "invalid BigNumber value")
  end.

(** [s.slice(2)]. *)
Definition slice2 (s : string) : string :=
  String.substring 2 (String.length s - 2)%nat s.

(** [s.replace(pattern, replacement)] with a string pattern: the first
    occurrence only ([replacement] holding no [$] pattern). *)
Definition replace (pattern replacement s : string) : string :=
  match String.index 0 pattern s with
  | Some n =>
      String.substring 0 n s ++ replacement
      ++ String.substring (n + String.length pattern)%nat
           (String.length s - (n + String.length pattern))%nat s
  | None => s
  end.

(** ** The collaborators

    [W] is the state of everything outside the party: the ledger, the
    network, the base chain. A call that awaits the network runs in
    [M W]; [Date.now()] only reads the world. *)
Record Env (W : Type) : Type := mkEnv {
  (* zksync.Provider *)
  getTransactionFee : FeeKind -> Address -> Token -> M W Z;
  getState : option Address -> M W AccountState.t;
  resolveTokenId : Token -> result Z;
  (* Promise.race([provider.notifyTransaction(hash, action),
                   new Promise((resolve) => setTimeout(resolve, delay, null))]) *)
  notifyTransaction_or_timer : string -> Action -> Z -> M W RaceResult;
  (* zksync.Wallet: syncTransfer({ to, token, amount }) and tx.awaitReceipt() *)
  syncTransfer : Address -> Token -> Z -> M W string;
  awaitReceipt : string -> M W unit;
  (* zksync.Signer *)
  transferSignBytes : Tx.t -> string -> result Bytes;
  withdrawSignBytes : Tx.t -> string -> result Bytes;
  changePubKeySignBytes : Tx.t -> string -> result Bytes;
  (* zksync.utils *)
  MAX_TIMESTAMP : Z;
  getCREATE2AddressAndSalt : string -> CREATE2Data.t -> result Create2Info.t;
  (* zksync-crypto and ethers.utils *)
  pubKeyHash : Bytes -> Bytes;
  hexlify : Bytes -> string;
  sha256 : Bytes -> string;
  (* Date.now(), in milliseconds *)
  now : W -> Z;
  (* the prefix of a ledger transaction hash (a constant of utils.ts) *)
  SYNC_TX_PREFIX : string
}.
Arguments mkEnv {W}.
Arguments getTransactionFee {W}.
Arguments getState {W}.
Arguments resolveTokenId {W}.
Arguments notifyTransaction_or_timer {W}.
Arguments syncTransfer {W}.
Arguments awaitReceipt {W}.
Arguments transferSignBytes {W}.
Arguments withdrawSignBytes {W}.
Arguments changePubKeySignBytes {W}.
Arguments MAX_TIMESTAMP {W}.
Arguments getCREATE2AddressAndSalt {W}.
Arguments pubKeyHash {W}.
Arguments hexlify {W}.
Arguments sha256 {W}.
Arguments now {W}.
Arguments SYNC_TX_PREFIX {W}.

(** The two-party signature primitive ([MusigSigner] of signer.ts, an
    opaque capability): [Sg] is the signer's internal state, which every
    operation may advance, and every operation may throw. *)
Record Musig (Sg : Type) : Type := mkMusig {
  newSigner : list string -> Z -> Z -> result Sg;
  computePrecommitments : M Sg (list Bytes);
  receivePrecommitments : list (list (option Bytes)) -> M Sg (list Bytes);
  computePubkey : M Sg Bytes;
  receiveCommitments : list (list (option Bytes)) -> M Sg unit;
  sign : Bytes -> Bytes -> nat -> M Sg Bytes;
  receiveSignatureShares : list (option Bytes) -> nat -> M Sg Bytes;
  verify : Bytes -> Bytes -> M Sg bool
}.
Arguments mkMusig {Sg}.
Arguments newSigner {Sg}.
Arguments computePrecommitments {Sg}.
Arguments receivePrecommitments {Sg}.
Arguments computePubkey {Sg}.
Arguments receiveCommitments {Sg}.
Arguments sign {Sg}.
Arguments receiveSignatureShares {Sg}.
Arguments verify {Sg}.

(** ** [getSignBytes] and [getTransactions] (utils.ts) *)

Section utils.
Context {W : Type} (env : Env W).

(** [getSignBytes(transaction, signer)]; reading [.type] of an
    [undefined] transaction throws. *)
Definition getSignBytes (transaction : option Tx.t) : result Bytes :=
  match transaction with
  | None => Throw TypeError
  | Some tx =>
      if String.eqb (Tx.type tx) "Transfer" then transferSignBytes env tx "contracts-4"
      else if String.eqb (Tx.type tx) "Withdraw" then withdrawSignBytes env tx "contracts-4"
      else if String.eqb (Tx.type tx) "ChangePubKey" then changePubKeySignBytes env tx "contracts-4"
      else Throw (Error "Invalid transaction type")
  end.

(** The five object literals of the returned array. *)
Definition txChangePubKey (swapData : SwapData.t) (clientAddress : Address)
    (swapAccount : AccountState.t) (id : Z) (pkh : Bytes) (sellTokenId fee : Z) : Tx.t :=
  {| Tx.type := "ChangePubKey";
     Tx.accountId := id;
     Tx.account := Some (AccountState.address swapAccount);
     Tx.newPkHash := Some ("sync:" ++ slice2 (hexlify env pkh));
     Tx.tokenId := None; Tx.from := None; Tx.to := None; Tx.ethAddress := None;
     Tx.amount := None;
     Tx.fee := fee;
     Tx.feeTokenId := sellTokenId;
     Tx.nonce := 0;
     Tx.validFrom := 0;
     Tx.validUntil := MAX_TIMESTAMP env;
     Tx.ethAuthData := Some
       {| EthAuthData.type := "CREATE2";
          EthAuthData.creatorAddress := clientAddress;
          EthAuthData.saltArg := Create2.salt (SwapData.create2 swapData);
          EthAuthData.codeHash := Create2.hash (SwapData.create2 swapData) |};
     Tx.signature := None |}.

Definition txTransfer (swapAccount : AccountState.t) (id tokenId : Z) (to : Address)
    (amount fee nonce validFrom validUntil : Z) : Tx.t :=
  {| Tx.type := "Transfer";
     Tx.accountId := id;
     Tx.account := None; Tx.newPkHash := None;
     Tx.tokenId := Some tokenId;
     Tx.from := Some (AccountState.address swapAccount);
     Tx.to := Some to;
     Tx.ethAddress := None;
     Tx.amount := Some amount;
     Tx.fee := fee;
     Tx.feeTokenId := tokenId;
     Tx.nonce := nonce;
     Tx.validFrom := validFrom;
     Tx.validUntil := validUntil;
     Tx.ethAuthData := None;
     Tx.signature := None |}.

Definition txWithdraw (swapAccount : AccountState.t) (id tokenId : Z) (ethAddress : Address)
    (amount fee nonce validFrom validUntil : Z) : Tx.t :=
  {| Tx.type := "Withdraw";
     Tx.accountId := id;
     Tx.account := None; Tx.newPkHash := None;
     Tx.tokenId := Some tokenId;
     Tx.from := Some (AccountState.address swapAccount);
     Tx.to := None;
     Tx.ethAddress := Some ethAddress;
     Tx.amount := Some amount;
     Tx.fee := fee;
     Tx.feeTokenId := tokenId;
     Tx.nonce := nonce;
     Tx.validFrom := validFrom;
     Tx.validUntil := validUntil;
     Tx.ethAuthData := None;
     Tx.signature := None |}.

(** [!swapAccount.id]: an absent identifier and the number 0 are falsy. *)
Definition id_not_set (id : option Z) : bool :=
  match id with
  | None => true
  | Some n => n =? 0
  end.

Definition getTransactions (swapData : SwapData.t)
    (clientAddress providerAddress swapAddress : Address) (pkh : Bytes)
    : M W (list Tx.t) :=
  let sell := SwapData.sell swapData in
  let buy := SwapData.buy swapData in
  let* transferSold := getTransactionFee env FeeTransfer providerAddress (Asset.token sell) in
  let* transferBought := getTransactionFee env FeeTransfer providerAddress (Asset.token buy) in
  let* changePubKey :=
    getTransactionFee env (FeeChangePubKey false) providerAddress (Asset.token sell) in
  let* withdraw := getTransactionFee env FeeWithdraw providerAddress (Asset.token sell) in
  let* swapAccount := getState env (Some swapAddress) in
  if id_not_set (AccountState.id swapAccount)
  then throw (Error "Swap Account ID not set - can't sign transactions")
  else
    let id := default 0 (AccountState.id swapAccount) in
    let* buyTokenId := liftR (resolveTokenId env (Asset.token buy)) in
    let* sellTokenId := liftR (resolveTokenId env (Asset.token sell)) in
    ret [
      txChangePubKey swapData clientAddress swapAccount id pkh sellTokenId changePubKey;
      txTransfer swapAccount id buyTokenId clientAddress
        (Asset.amount buy) transferBought 1 0 (SwapData.timeout swapData);
      match SwapData.withdrawType swapData with
      | Some L1 =>
          txWithdraw swapAccount id sellTokenId providerAddress
            (Asset.amount sell) withdraw 2 0 (MAX_TIMESTAMP env)
      | _ =>
          txTransfer swapAccount id sellTokenId providerAddress
            (Asset.amount sell) transferSold 2 0 (MAX_TIMESTAMP env)
      end;
      txTransfer swapAccount id sellTokenId clientAddress
        (Asset.amount sell) transferSold 1 (SwapData.timeout swapData + 1) (MAX_TIMESTAMP env);
      txTransfer swapAccount id buyTokenId providerAddress
        0 transferBought 2 (SwapData.timeout swapData + 1) (MAX_TIMESTAMP env)
    ].
End utils.

(** ** The party (abstract-party.ts, as far as client.ts uses it) *)

Module Party.
(** The fields of [SwapParty] that [SwapClient] reads and writes; a
    field not yet assigned is [None]. [address] is what
    [this.syncWallet.address()] returns. *)
Record t (Sg : Type) : Type := mk {
  state : SwapState;
  swapData : option SwapData.t;
  transactions : option (list Tx.t);
  signer : option Sg;
  commitments : option (list Bytes);
  pubKeyHash : option Bytes;
  create2Info : option Create2Info.t;
  privateKey : Bytes;
  publicKey : string;
  address : Address
}.
Arguments mk {Sg}.
Arguments state {Sg}.
Arguments swapData {Sg}.
Arguments transactions {Sg}.
Arguments signer {Sg}.
Arguments commitments {Sg}.
Arguments pubKeyHash {Sg}.
Arguments create2Info {Sg}.
Arguments privateKey {Sg}.
Arguments publicKey {Sg}.
Arguments address {Sg}.

Section setters.
Context {Sg : Type}.
Implicit Type p : t Sg.

Definition set_state (x : SwapState) p : t Sg :=
  mk x (swapData p) (transactions p) (signer p) (commitments p) (pubKeyHash p)
     (create2Info p) (privateKey p) (publicKey p) (address p).
Definition set_swapData (x : option SwapData.t) p : t Sg :=
  mk (state p) x (transactions p) (signer p) (commitments p) (pubKeyHash p)
     (create2Info p) (privateKey p) (publicKey p) (address p).
Definition set_transactions (x : option (list Tx.t)) p : t Sg :=
  mk (state p) (swapData p) x (signer p) (commitments p) (pubKeyHash p)
     (create2Info p) (privateKey p) (publicKey p) (address p).
Definition set_signer (x : option Sg) p : t Sg :=
  mk (state p) (swapData p) (transactions p) x (commitments p) (pubKeyHash p)
     (create2Info p) (privateKey p) (publicKey p) (address p).
Definition set_commitments (x : option (list Bytes)) p : t Sg :=
  mk (state p) (swapData p) (transactions p) (signer p) x (pubKeyHash p)
     (create2Info p) (privateKey p) (publicKey p) (address p).
Definition set_pubKeyHash (x : option Bytes) p : t Sg :=
  mk (state p) (swapData p) (transactions p) (signer p) (commitments p) x
     (create2Info p) (privateKey p) (publicKey p) (address p).
Definition set_create2Info (x : option Create2Info.t) p : t Sg :=
  mk (state p) (swapData p) (transactions p) (signer p) (commitments p) (pubKeyHash p)
     x (privateKey p) (publicKey p) (address p).
End setters.
End Party.

(** The party object together with the world it acts on. *)
Record St (W Sg : Type) : Type := mkSt { party : Party.t Sg; world : W }.
Arguments mkSt {W Sg}.
Arguments party {W Sg}.
Arguments world {W Sg}.

(** The methods of [SwapParty] that client.ts calls and that talk to
    the ledger: [sendBatch(txs, feeToken)], [deposit(token, amount,
    depositType, autoApprove)] and [swapAddress()]. Their bodies are in
    abstract-party.ts; here they are operations of the environment. *)
Record Base (W Sg : Type) : Type := mkBase {
  sendBatch : list (option Tx.t) -> Token -> M W (list string);
  deposit : Token -> Z -> Layer -> bool -> M W string;
  swapAddress : Party.t Sg -> result Address
}.
Arguments mkBase {W Sg}.
Arguments sendBatch {W Sg}.
Arguments deposit {W Sg}.
Arguments swapAddress {W Sg}.

(** [CLIENT_MUSIG_POSITION] (client.ts). *)
Definition CLIENT_MUSIG_POSITION : Z := 1.

(** Modelled from the spec: [TOTAL_TRANSACTIONS] of utils.ts is not among
    the sources; the plan is an ordered sequence of exactly 5
    transaction descriptors. *)
Definition TOTAL_TRANSACTIONS : Z := 5.

(** Modelled from the spec: [formatTx(tx, signature, pubkey)] of utils.ts
    is not among the sources; once signed, a transaction carries an
    attached signature and the aggregate public key. The call mutates
    the transaction object; the model returns the mutated object. *)
Definition formatTx (tx : Tx.t) (signature musigPubkey : Bytes) : Tx.t :=
  Tx.set_signature
    (Some {| TxSignature.pubKey := musigPubkey; TxSignature.signature := signature |}) tx.

(** The record [{ creatorAddress, saltArg, codeHash }] that [prepareSwap]
    passes to [getCREATE2AddressAndSalt]. *)
Definition create2Params (data : SwapData.t) : CREATE2Data.t :=
  {| CREATE2Data.creatorAddress := Create2.creator (SwapData.create2 data);
     CREATE2Data.saltArg := Create2.salt (SwapData.create2 data);
     CREATE2Data.codeHash := Create2.hash (SwapData.create2 data) |}.

(** The deterministic-creation parameters (creator address, salt, code
    hash) as the escrow-address derivation receives them, and as an
    [ethAuthData] carries them. *)
Definition derivation_triple (d : CREATE2Data.t) : Address * string * string :=
  (CREATE2Data.creatorAddress d, CREATE2Data.saltArg d, CREATE2Data.codeHash d).

Definition auth_triple (a : EthAuthData.t) : Address * string * string :=
  (EthAuthData.creatorAddress a, EthAuthData.saltArg a, EthAuthData.codeHash a).

(** The [ethAuthData] of the key registration, the transaction at index 0
    of a plan. *)
Definition registration_auth (plan : list Tx.t) : option EthAuthData.t :=
  plan !! 0%nat ≫= Tx.ethAuthData.

(** ** [SwapClient] (client.ts) *)

Section client.
Context {W Sg : Type} (env : Env W) (base : Base W Sg) (musig : Musig Sg).

Local Abbreviation State := (St W Sg).

(** Reading and assigning the fields of [this]. *)
Definition getP {A} (f : Party.t Sg -> A) : M State A := gets (fun s => f (party s)).

Definition setP (f : Party.t Sg -> Party.t Sg) : M State unit :=
  modify (fun s => mkSt (f (party s)) (world s)).

(** Reading a field that must hold an object: [undefined.x] throws. *)
Definition getObj {A} (f : Party.t Sg -> option A) : M State A :=
  fun s =>
    match f (party s) with
    | Some a => (Ok a, s)
    | None => (Throw TypeError, s)
    end.

(** A call on the world. *)
Definition liftW {A} (c : M W A) : M State A :=
  fun s => let (r, w) := c (world s) in (r, mkSt (party s) w).

(** A method call on [this.signer]. *)
Definition withSigner {A} (c : M Sg A) : M State A :=
  fun s =>
    match Party.signer (party s) with
    | None => (Throw TypeError, s)
    | Some sg => let (r, sg') := c sg in (r, mkSt (Party.set_signer (Some sg') (party s)) (world s))
    end.

(** Modelled from the spec: [SwapParty.getSignBytes(tx)] is in
    abstract-party.ts, not among the sources; it is the party's
    signable-byte extraction, the [getSignBytes] of utils.ts with the
    wallet's signer. *)
Definition party_getSignBytes (tx : option Tx.t) : M State Bytes :=
  liftR (getSignBytes env tx).

(** [this.transactions[i]] of the array held by [this]. *)
Definition set_tx (i : nat) (tx : Tx.t) (p : Party.t Sg) : Party.t Sg :=
  Party.set_transactions (fmap (M := option) (fun txs => <[i := tx]> txs) (Party.transactions p)) p.

Definition loadSwap (swapData : SwapData.t) (signedTransactions : list Tx.t) : M State unit :=
  let* st := getP Party.state in
  if bool_decide (st <> empty)
  then throw (Error "In the middle of a swap - can't switch to a new one")
  else
    setP (Party.set_swapData (Some swapData));;
    setP (Party.set_transactions (Some signedTransactions));;
    let* tx0 := liftR (match signedTransactions !! 0%nat with
                       | Some tx => Ok tx
                       | None => Throw TypeError
                       end) in
    let swapAddress := Tx.account tx0 in
    let* swapAccount := liftW (getState env swapAddress) in
    let balance :=
      AccountState.committed_balances swapAccount !! Asset.token (SwapData.sell swapData) in
    let* greater := liftR (BigNumber_gt (Asset.amount (SwapData.sell swapData)) balance) in
    setP (Party.set_state (if greater then signed else deposited)).

Definition signedTransactions : M State (option (list Tx.t)) :=
  let* st := getP Party.state in
  if bool_decide (st <> signed) && bool_decide (st <> deposited)
  then throw (Error "Transactions are not signed yet")
  else getP Party.transactions.

(** Fields that were assigned a few lines above are read through the
    local name of the value assigned. *)
Definition prepareSwap (data : SwapData.t) (providerPubkey : string)
    (providerAddress : Address) (providerPrecommitments : list Bytes)
    : M State (list Bytes * list Bytes) :=
  let* st := getP Party.state in
  if bool_decide (st <> empty)
  then throw (Error "In the middle of a swap - can't start a new one")
  else
    setP (Party.set_swapData (Some data));;
    let* publicKey := getP Party.publicKey in
    let* sg := liftR (newSigner musig [providerPubkey; publicKey]
                        CLIENT_MUSIG_POSITION TOTAL_TRANSACTIONS) in
    setP (Party.set_signer (Some sg));;
    let* precommitments := withSigner (computePrecommitments musig) in
    let* matrix := liftR (transpose [providerPrecommitments; precommitments]) in
    let* commitments := withSigner (receivePrecommitments musig matrix) in
    setP (Party.set_commitments (Some commitments));;
    let* pubkey := withSigner (computePubkey musig) in
    let pkh := pubKeyHash env pubkey in
    setP (Party.set_pubKeyHash (Some pkh));;
    let* info := liftR (getCREATE2AddressAndSalt env (hexlify env pkh) (create2Params data)) in
    setP (Party.set_create2Info (Some info));;
    let* swapAccount := liftW (getState env (Some (Create2Info.address info))) in
    (if id_not_set (AccountState.id swapAccount)
     then
       let* tx := liftW (syncTransfer env (Create2Info.address info)
                           (Asset.token (SwapData.sell data)) 0) in
       liftW (awaitReceipt env tx)
     else ret tt);;
    let* clientAddress := getP Party.address in
    let* txs := liftW (getTransactions env data clientAddress providerAddress
                         (Create2Info.address info) pkh) in
    setP (Party.set_transactions (Some txs));;
    setP (Party.set_state prepared);;
    ret (precommitments, commitments).

(** The first half of the body of [this.transactions.forEach((tx, i) =>
    ...)]: the signable bytes of [tx], the client's share, the
    combined signature and the verdict of [this.signer.verify] on it. *)
Definition combineAndVerify (dataShares : list Bytes) (tx : Tx.t) (i : nat)
    : M State (Bytes * Bytes * bool) :=
  let* bytes := party_getSignBytes (Some tx) in
  let* privateKey := getP Party.privateKey in
  let* share := withSigner (sign musig privateKey bytes i) in
  let* signature :=
    withSigner (receiveSignatureShares musig [dataShares !! i; Some share] i) in
  let* valid := withSigner (verify musig bytes signature) in
  ret (share, signature, valid).

(** The loop [this.transactions.forEach((tx, i) => ...)], from index [i]
    on; [txs] are the transaction objects still to visit and [shares]
    the local array filled so far. [formatTx] mutates the object that
    [this.transactions[i]] holds. *)
Fixpoint signEach (dataShares : list Bytes) (musigPubkey : Bytes)
    (txs : list Tx.t) (i : nat) (shares : list Bytes) : M State (list Bytes) :=
  match txs with
  | [] => ret shares
  | tx :: rest =>
      let* (share, signature, valid) := combineAndVerify dataShares tx i in
      let shares := (shares ++ [share])%list in
      if negb valid
      then throw (Error "Provided signature shares are invalid")
      else
        setP (set_tx i (formatTx tx signature musigPubkey));;
        signEach dataShares musigPubkey rest (S i) shares
  end.

(** Two states that differ at most in the signer's internal state. *)
Definition signer_frame (s s' : State) : Prop :=
  world s' = world s
  /\ Party.set_signer None (party s') = Party.set_signer None (party s).

(** A signature that [this.signer.verify] accepted for the signable
    bytes of [tx], in some state of the signer. *)
Definition verified (tx : Tx.t) (signature : Bytes) : Prop :=
  exists bytes sg sg',
    getSignBytes env (Some tx) = Ok bytes
    /\ verify musig bytes signature sg = (Ok true, sg').

(** [transpose([data.commitments, this.commitments])]: a row that is
    [undefined] throws as soon as one of its entries is read. *)
Definition transposeCommitments (dataCommitments : list Bytes)
    (own : option (list Bytes)) : result (list (list (option Bytes))) :=
  match own with
  | Some c => transpose [dataCommitments; c]
  | None =>
      match dataCommitments with
      | [] => Ok []
      | _ :: _ => Throw TypeError
      end
  end.

Definition signSwap (dataCommitments dataShares : list Bytes) : M State (list Bytes) :=
  let* st := getP Party.state in
  if bool_decide (st <> prepared)
  then throw (Error "Not prepared for the swap")
  else
    let* own := getP Party.commitments in
    let* matrix := liftR (transposeCommitments dataCommitments own) in
    withSigner (receiveCommitments musig matrix);;
    let* musigPubkey := withSigner (computePubkey musig) in
    let* txs := getObj Party.transactions in
    let* shares := signEach dataShares musigPubkey txs 0 [] in
    setP (Party.set_state signed);;
    ret shares.

(** [depositType] defaults to ['L2'] and [autoApprove] to [true]. *)
Definition depositFunds (depositType : Layer) (autoApprove : bool) : M State string :=
  let* st := getP Party.state in
  if bool_decide (st <> signed)
  then throw (Error "Not yet signed the transactions - can't deposit funds")
  else
    let* swapData := getObj Party.swapData in
    let* hash := liftW (deposit base (Asset.token (SwapData.sell swapData))
                          (Asset.amount (SwapData.sell swapData)) depositType autoApprove) in
    setP (Party.set_state deposited);;
    ret hash.

(** [action] defaults to ['COMMIT']. *)
Definition wait (action : Action) : M State bool :=
  let* st := getP Party.state in
  if bool_decide (st <> deposited)
  then throw (Error "No funds on the swap account - nothing to wait for")
  else
    let* txs := getObj Party.transactions in
    let* bytes := party_getSignBytes (txs !! 1%nat) in
    let hash := sha256 env bytes in
    let* swapData := getObj Party.swapData in
    let* today := liftW (gets (now env)) in
    let timeout := SwapData.timeout swapData * 1000 - today in
    let* result := liftW (notifyTransaction_or_timer env
                            (replace "0x" (SYNC_TX_PREFIX env) hash) action timeout) in
    (if truthy result then setP (Party.set_state finalized) else ret tt);;
    ret (not_null result).

Definition finalizeSwap : M State (list string) :=
  let* p := getP (fun p => p) in
  let* address := liftR (swapAddress base p) in
  let* swapAccount := liftW (getState env (Some address)) in
  let* swapData := getObj Party.swapData in
  let balance :=
    AccountState.committed_balances swapAccount !! Asset.token (SwapData.buy swapData) in
  let* st := getP Party.state in
  let* refused :=
    (if bool_decide (st <> deposited) then ret true
     else liftR (BigNumber_gt (Asset.amount (SwapData.buy swapData)) balance)) in
  if (refused : bool)
  then throw (Error "No funds on the swap account - nothing to finalize")
  else
    let* txs := getObj Party.transactions in
    liftW (sendBatch base [txs !! 0%nat] (Asset.token (SwapData.sell swapData)));;
    let* hashes :=
      liftW (sendBatch base [txs !! 1%nat] (Asset.token (SwapData.sell swapData))) in
    setP (Party.set_state finalized);;
    ret hashes.

Definition cancelSwap : M State (list string) :=
  let* today := liftW (gets (now env)) in
  let* swapData := getObj Party.swapData in
  if today <? SwapData.timeout swapData * 1000
  then throw (Error "Too early to cancel the swap")
  else
    let* st := getP Party.state in
    if bool_decide (st <> deposited)
    then throw (Error "No funds on the swap account - nothing to cancel")
    else
      let* txs := getObj Party.transactions in
      liftW (sendBatch base [txs !! 0%nat] (Asset.token (SwapData.sell swapData)));;
      let* hashes :=
        liftW (sendBatch base [txs !! 3%nat] (Asset.token (SwapData.sell swapData))) in
      setP (Party.set_state finalized);;
      ret hashes.
End client.

(** ** [getSyncKeys] (utils.ts) *)

(** The Ethereum wallet that [getSyncKeys] receives: the key it signs
    with, and whether it is connected to a provider
    ([ethWallet.provider]). *)
Module EthWallet.
Record t : Type := mk { privateKey : string; connected : bool }.
End EthWallet.

(** The result [{ privkey, pubkey }]. *)
Module SyncKeys.
Record t : Type := mk { privkey : Bytes; pubkey : Bytes }.
End SyncKeys.

(** What [getSyncKeys] calls: the provider's [getNetwork()] (its
    [chainId]), [zksync.utils.getSignedBytesFromMessage] and
    [signMessagePersonalAPI], [ethers.utils.arrayify], and
    [privateKeyFromSeed] and [private_key_to_pubkey] of zksync-crypto. *)
Record KeyEnv (W : Type) : Type := mkKeyEnv {
  getNetwork : M W Z;
  (* Number::toString of a number of magnitude 1e21 or more: the
     exponent form, as in 1e+21 *)
  exponential : Z -> string;
  getSignedBytesFromMessage : string -> bool -> Bytes;
  signMessagePersonalAPI : string -> Bytes -> M W string;
  arrayify : string -> result Bytes;
  privateKeyFromSeed : Bytes -> result Bytes;
  private_key_to_pubkey : Bytes -> result Bytes
}.
Arguments mkKeyEnv {W}.
Arguments getNetwork {W}.
Arguments exponential {W}.
Arguments getSignedBytesFromMessage {W}.
Arguments signMessagePersonalAPI {W}.
Arguments arrayify {W}.
Arguments privateKeyFromSeed {W}.
Arguments private_key_to_pubkey {W}.

(** The line feed of the message literals. *)
Definition LF : string := String (Ascii.ascii_of_nat 10) EmptyString.

(** The decimal digits of an integer, with a minus sign when negative. *)
Definition decimal (n : Z) : string :=
  NilZero.string_of_int (Z.to_int n).

(** [`${chainID}`] of an integer [number]: its decimal digits below
    1e21 in magnitude, and the exponent form from there on. *)
Definition number_to_string (exponent_form : Z -> string) (n : Z) : string :=
  if Z.abs n <? 10 ^ 21 then decimal n else exponent_form n.

(** The message of [getSyncKeys] for a chain: the fixed text, and for
    every chain but 1 a line naming the chain. *)
Definition accessMessage (exponent_form : Z -> string) (chainID : Z) : string :=
  let message :=
    "Access zkSync account." ++ LF ++ LF ++ "Only sign this message for a trusted client!" in
  if bool_decide (chainID <> 1)
  then message ++ (LF ++ "Chain ID: " ++ number_to_string exponent_form chainID ++ ".")
  else message.

Definition getSyncKeys {W} (kenv : KeyEnv W) (ethWallet : EthWallet.t)
    : M W SyncKeys.t :=
  let* chainID :=
    (if EthWallet.connected ethWallet then getNetwork kenv else ret 1) in
  let message := accessMessage (exponential kenv) chainID in
  let signedBytes := getSignedBytesFromMessage kenv message false in
  let* signature :=
    signMessagePersonalAPI kenv (EthWallet.privateKey ethWallet) signedBytes in
  let* seed := liftR (arrayify kenv signature) in
  let* privkey := liftR (privateKeyFromSeed kenv seed) in
  let* pubkey := liftR (private_key_to_pubkey kenv privkey) in
  ret {| SyncKeys.privkey := privkey; SyncKeys.pubkey := pubkey |}.

(** ** A ledger that tracks nonces

    The ledger network is outside this repository. For the exclusivity
    property of the plan it is modelled by what it refuses: a submitted
    transaction is accepted only if its nonce has not been consumed
    before and the time of the submission lies in its validity window;
    [policy] stands for any further condition of a real ledger (nonce
    order, balances, signatures). Submissions come in any order, at any
    times, and a refused one changes nothing. *)
Module Ledger.
Record t : Type := mk {
  consumed : gset Z;      (* the nonces used up *)
  accepted : list nat     (* the plan indices accepted, latest first *)
}.

Definition init : t := mk ∅ [].

Section rules.
Variable policy : t -> Tx.t -> Z -> bool.
Variable plan : list Tx.t.

Definition admits (l : t) (tx : Tx.t) (time : Z) : bool :=
  bool_decide (Tx.nonce tx ∉ consumed l)
  && (Tx.validFrom tx <=? time) && (time <=? Tx.validUntil tx)
  && policy l tx time.

Definition submit (l : t) (i : nat) (time : Z) : t :=
  match plan !! i with
  | Some tx =>
      if admits l tx time
      then mk ({[Tx.nonce tx]} ∪ consumed l) (i :: accepted l)
      else l
  | None => l
  end.

Inductive step : t -> t -> Prop :=
  | step_submit (l : t) (i : nat) (time : Z) : step l (submit l i time).

Definition reachable (l : t) : Prop := rtc step init l.

(** What every reachable state satisfies: an accepted transaction
    has its nonce consumed, and no two accepted transactions share a
    nonce. *)
Definition invariant (l : t) : Prop :=
  (forall i, i ∈ accepted l ->
     exists tx, plan !! i = Some tx /\ Tx.nonce tx ∈ consumed l)
  /\ (forall i j tx tx', i ∈ accepted l -> j ∈ accepted l ->
        plan !! i = Some tx -> plan !! j = Some tx' ->
        Tx.nonce tx = Tx.nonce tx' -> i = j).
End rules.
End Ledger.

(** ** A test double of the collaborators

    A small world to run the methods on: a clock, the identifiers and
    balances of the ledger accounts, what the race of [wait] will
    resolve to, and the log of the batches submitted. *)
Module Mock.
Record World : Type := mkWorld {
  clock : Z;
  ids : gmap string Z;
  balances : gmap string (gmap string Z);
  outcome : RaceResult;
  batches : list (list (option Tx.t) * Token)
}.

Definition fee_of (k : FeeKind) : Z :=
  match k with
  | FeeTransfer => 10
  | FeeWithdraw => 30
  | FeeChangePubKey _ => 20
  end.

Definition state_of (a : option Address) : M World AccountState.t :=
  match a with
  | None => throw (Error "invalid address")
  | Some a =>
      gets (fun w => {| AccountState.address := a;
                        AccountState.id := ids w !! a;
                        AccountState.committed_balances := default ∅ (balances w !! a) |})
  end.

Definition token_id (t : Token) : result Z :=
  if String.eqb t "ETH" then Ok 0
  else if String.eqb t "DAI" then Ok 1
  else Throw (Error "unknown token").

Definition transfer (to : Address) (t : Token) (amount : Z) : M World string :=
  modify (fun w =>
    mkWorld (clock w)
      (match ids w !! to with Some _ => ids w | None => <[to := 7]> (ids w) end)
      (balances w) (outcome w) (batches w));;
  ret "0xtransfer".

Definition sign_bytes (tag : Byte.byte) (tx : Tx.t) (version : string) : result Bytes :=
  Ok [tag; default Byte.x00 (Byte.of_N (Z.to_N (Tx.nonce tx)))].

Definition create2 (pkh : string) (d : CREATE2Data.t) : result Create2Info.t :=
  Ok {| Create2Info.salt := CREATE2Data.saltArg d;
        Create2Info.address := "0xe5c" ++ CREATE2Data.creatorAddress d |}.

Definition env : Env World :=
  {| getTransactionFee := fun k _ _ => ret (fee_of k);
     getState := state_of;
     resolveTokenId := token_id;
     notifyTransaction_or_timer := fun _ _ _ => gets outcome;
     syncTransfer := transfer;
     awaitReceipt := fun _ => ret tt;
     transferSignBytes := sign_bytes Byte.x01;
     withdrawSignBytes := sign_bytes Byte.x02;
     changePubKeySignBytes := sign_bytes Byte.x03;
     MAX_TIMESTAMP := 4294967295;
     getCREATE2AddressAndSalt := create2;
     pubKeyHash := fun b => b;
     hexlify := fun _ => "0x2a";
     sha256 := fun _ => "0xbeef";
     now := clock;
     SYNC_TX_PREFIX := "sync-tx:" |}.

(** A signer without secrets: a share is the message itself, the
    combined signature is the two shares in a row, and it verifies
    when it is the message twice. *)
Definition combine (shares : list (option Bytes)) : Bytes :=
  concat (omap (fun s => s) shares).

Definition same (a b : Bytes) : bool :=
  bool_decide (Byte.to_N <$> a = Byte.to_N <$> b).

Definition musig : Musig unit :=
  {| newSigner := fun _ _ _ => Ok tt;
     computePrecommitments := ret [[Byte.x10]; [Byte.x11]; [Byte.x12]; [Byte.x13]; [Byte.x14]];
     receivePrecommitments := fun _ =>
       ret [[Byte.x20]; [Byte.x21]; [Byte.x22]; [Byte.x23]; [Byte.x24]];
     computePubkey := ret [Byte.x2a];
     receiveCommitments := fun _ => ret tt;
     sign := fun _ bytes _ => ret bytes;
     receiveSignatureShares := fun shares _ => ret (combine shares);
     verify := fun bytes signature => ret (same signature (bytes ++ bytes)%list) |}.

Definition base : Base World unit :=
  {| sendBatch := fun txs feeToken =>
       modify (fun w => mkWorld (clock w) (ids w) (balances w) (outcome w)
                          (batches w ++ [(txs, feeToken)])%list);;
       ret ["0xbatch"];
     deposit := fun _ _ _ _ => ret "0xdeposit";
     swapAddress := fun p =>
       match Party.create2Info p with
       | Some info => Ok (Create2Info.address info)
       | None => Throw (Error "No active swaps present")
       end |}.

(** The terms of the test suite: sell 1 ETH, buy 1000 DAI; the
    CREATE2 creator is the deployer contract. *)
Definition swapData : SwapData.t :=
  {| SwapData.sell := {| Asset.token := "ETH"; Asset.amount := 1000000000000000000 |};
     SwapData.buy := {| Asset.token := "DAI"; Asset.amount := 1000000000000000000000 |};
     SwapData.timeout := 1700000600;
     SwapData.withdrawType := None;
     SwapData.create2 := {| Create2.creator := "0xdep"; Create2.salt := "0x5a17";
                            Create2.hash := "0xc0de" |} |}.

Definition client : Party.t unit :=
  {| Party.state := empty;
     Party.swapData := None;
     Party.transactions := None;
     Party.signer := None;
     Party.commitments := None;
     Party.pubKeyHash := None;
     Party.create2Info := None;
     Party.privateKey := [Byte.x01];
     Party.publicKey := "0xc1";
     Party.address := "0xc11e" |}.

Definition escrow : Address := "0xe5c0xdep".

(** A world in which the escrow account is known to the ledger and
    holds [sellBalance] of the sell token and [buyBalance] of the buy
    token. *)
Definition world_at (time : Z) (sellBalance buyBalance : option Z) (o : RaceResult) : World :=
  {| clock := time;
     ids := {[ escrow := 42 ]};
     balances :=
       {[ escrow :=
            (match sellBalance with Some b => <["ETH" := b]> | None => fun m => m end)
              ((match buyBalance with Some b => <["DAI" := b]> | None => fun m => m end) ∅) ]};
     outcome := o;
     batches := [] |}.

(** A world in which the ledger does not know the escrow account. *)
Definition fresh_world : World :=
  {| clock := 1700000000000; ids := ∅; balances := ∅; outcome := Null; batches := [] |}.

Definition providerPrecommitments : list Bytes :=
  [[Byte.x30]; [Byte.x31]; [Byte.x32]; [Byte.x33]; [Byte.x34]].

(** The plan for [swapData] in a world that knows the escrow account. *)
Definition plan : list Tx.t :=
  match getTransactions env swapData "0xc11e" "0x9707" escrow [Byte.x2a]
          (world_at 1700000000000 None None Null) with
  | (Ok txs, _) => txs
  | (Throw _, _) => []
  end.

(** The client after the handshake, in state [st]. *)
Definition party_in (st : SwapState) : Party.t unit :=
  {| Party.state := st;
     Party.swapData := Some swapData;
     Party.transactions := Some plan;
     Party.signer := Some tt;
     Party.commitments := Some [[Byte.x20]; [Byte.x21]; [Byte.x22]; [Byte.x23]; [Byte.x24]];
     Party.pubKeyHash := Some [Byte.x2a];
     Party.create2Info := Some {| Create2Info.salt := "0x5a17"; Create2Info.address := escrow |};
     Party.privateKey := [Byte.x01];
     Party.publicKey := "0xc1";
     Party.address := "0xc11e" |}.

(** The client after [prepareSwap] with the provider's first message. *)
Definition prepared : St World unit :=
  snd (prepareSwap env musig swapData "0x9b" "0x9707" providerPrecommitments
         (mkSt client (world_at 1700000000000 None None Null))).

(** The provider's commitments, and its signature shares: the honest
    ones, and a set whose share for transaction 1 is corrupted. *)
Definition providerCommitments : list Bytes :=
  [[Byte.x40]; [Byte.x41]; [Byte.x42]; [Byte.x43]; [Byte.x44]].

Definition honestShares : list Bytes :=
  [[Byte.x03; Byte.x00]; [Byte.x01; Byte.x01]; [Byte.x01; Byte.x02];
   [Byte.x01; Byte.x01]; [Byte.x01; Byte.x02]].

Definition corruptedShares : list Bytes := <[1%nat := [Byte.xff]]> honestShares.

(** Signing with the corrupted shares: the state in which the loop
    starts, the state after transaction 0 was signed and formatted,
    and the state in which the verification of transaction 1 failed. *)
Definition round2 : St World unit :=
  mkSt (Party.set_signer (Some tt) (party prepared)) (world_at 1700000000000 None None Null).

Definition after_first : St World unit :=
  snd (signEach env musig corruptedShares [Byte.x2a] (take 1 plan) 0 [] round2).

Definition rejected : St World unit :=
  snd (signSwap env musig providerCommitments corruptedShares prepared).

Definition matrix : list (list (option Bytes)) :=
  [[Some [Byte.x40]; Some [Byte.x20]]; [Some [Byte.x41]; Some [Byte.x21]];
   [Some [Byte.x42]; Some [Byte.x22]]; [Some [Byte.x43]; Some [Byte.x23]];
   [Some [Byte.x44]; Some [Byte.x24]]].

(** The client with its funds in the escrow account, after the timeout,
    the escrow holding twice the buy amount. *)
Definition funded : St World unit :=
  mkSt (party_in deposited)
    (world_at 1700000700000 (Some 1000000000000000000)
       (Some 2000000000000000000000) Null).

Definition log (txs : list (option Tx.t)) (feeToken : Token) (w : World) : World :=
  mkWorld (clock w) (ids w) (balances w) (outcome w) (batches w ++ [(txs, feeToken)])%list.

(** A client that has finished its swap; one that has deposited and
    waits, ten minutes before the timeout; and one that lost its
    session while the escrow account holds exactly the sell amount. *)
Definition finished : St World unit :=
  mkSt (party_in finalized) (world_at 1700000000000 None None Null).

Definition waiting : St World unit :=
  mkSt (party_in deposited) (world_at 1700000000000 None None Null).

Definition crashed : St World unit :=
  mkSt client (world_at 1700000000000 (Some 1000000000000000000) None Null).

(** A ledger with no further condition, after four submissions: the
    pay-buyer transaction before the timeout, then the refund, the
    pay-seller transaction and the nonce-burn after it. *)
Definition permissive (l : Ledger.t) (tx : Tx.t) (time : Z) : bool := true.

Definition ledger : Ledger.t :=
  Ledger.submit permissive plan
    (Ledger.submit permissive plan
       (Ledger.submit permissive plan
          (Ledger.submit permissive plan Ledger.init 1 1700000100)
          3 1700000700)
       2 1700000800)
    4 1700000900.
(** Further states and collaborators of the test double. *)

(** The client once the honest shares have been combined. *)
Definition signedUp : St World unit :=
  snd (signSwap env musig providerCommitments honestShares prepared).

(** A client that is in state [st] after the timeout, the escrow
    account holding the sell amount and twice the buy amount. *)
Definition late (st : SwapState) : St World unit :=
  mkSt (party_in st)
    (world_at 1700000700000 (Some 1000000000000000000)
       (Some 2000000000000000000000) Null).

(** The same before the timeout, the escrow account holding less of the
    buy token than the terms ask for. *)
Definition underfunded : St World unit :=
  mkSt (party_in deposited)
    (world_at 1700000000000 (Some 1000000000000000000)
       (Some 999000000000000000000) Null).

(** A client whose session was lost after the timeout, and the same
    client with the session restored. *)
Definition crashed_late : St World unit :=
  mkSt client (world_at 1700000700000 (Some 1000000000000000000) None Null).

Definition restored : St World unit :=
  snd (loadSwap env swapData plan crashed_late).

(** Terms that sell a token the ledger does not list. *)
Definition unlisted : SwapData.t :=
  {| SwapData.sell := {| Asset.token := "XYZ"; Asset.amount := 5 |};
     SwapData.buy := SwapData.buy swapData;
     SwapData.timeout := SwapData.timeout swapData;
     SwapData.withdrawType := Some L1;
     SwapData.create2 := SwapData.create2 swapData |}.

(** A wallet signer without secrets, on chain 1. *)
Definition keyEnv : KeyEnv World :=
  {| getNetwork := ret 1;
     exponential := fun _ => "1e+21";
     getSignedBytesFromMessage := fun message _ =>
       [default Byte.x00 (Byte.of_nat (String.length message))];
     signMessagePersonalAPI := fun key _ => ret ("0x5166" ++ key);
     arrayify := fun _ => Ok [Byte.x51; Byte.x66];
     privateKeyFromSeed := fun seed => Ok seed;
     private_key_to_pubkey := fun key => Ok (rev key) |}.


Definition hollow : St World unit :=
  mkSt (party_in deposited) (world_at 1700000000000 None None Falsy).

(** A client that lost its session before anything reached the escrow
    account: the ledger knows the account, which holds no token. *)
Definition crashed_early : St World unit :=
  mkSt client (world_at 1700000000000 None None Null).

(** A client that has deposited while the provider has not: the escrow
    account holds the sell amount and nothing of the buy token. *)
Definition unmatched : St World unit :=
  mkSt (party_in deposited)
    (world_at 1700000000000 (Some 1000000000000000000) None Null).
End Mock.

(** * Properties *)

(** ** [transpose] *)

Section transpose_facts.
Context {T : Type}.
Implicit Types (m : list (list T)) (row : list T).

Lemma transpose_cons row m :
  transpose (row :: m)
  = Ok (imap (fun index _ => (fun r : list T => r !! index) <$> (row :: m)) row).
Proof. reflexivity. Qed.

Lemma transpose_length m t :
  transpose m = Ok t -> exists row0, m !! 0%nat = Some row0 /\ length t = length row0.
Proof.
  unfold transpose. destruct (m !! 0%nat) as [row0|]; [|discriminate].
  intros [= <-]. exists row0. split; [reflexivity|]. apply length_imap.
Qed.

Lemma transpose_lookup m t i :
  transpose m = Ok t -> is_Some (t !! i) ->
  t !! i = Some ((fun r : list T => r !! i) <$> m).
Proof.
  unfold transpose. destruct (m !! 0%nat) as [row0|]; [|discriminate].
  intros [= <-] [x Hx]. rewrite list_lookup_imap in Hx |- *.
  destruct (row0 !! i); [reflexivity|discriminate].
Qed.

Lemma column_defined m cols i :
  rectangular m cols -> (i < cols)%nat ->
  (fun r : list T => r !! i) <$> m = Some <$> column m i.
Proof.
  intros Hrect Hi. unfold column. induction Hrect as [|row m Hlen _ IH]; [reflexivity|].
  cbn [fmap list_fmap omap list_omap].
  destruct (lookup_lt_is_Some_2 row i) as [x Hx]; [lia|].
  rewrite Hx. cbn. f_equal. exact IH.
Qed.

Lemma column_length m cols i :
  rectangular m cols -> (i < cols)%nat -> length (column m i) = length m.
Proof.
  intros Hrect Hi.
  assert (H := f_equal length (column_defined m cols i Hrect Hi)).
  rewrite !length_fmap in H. congruence.
Qed.

Lemma column_lookup m cols i j :
  rectangular m cols -> (i < cols)%nat -> column m i !! j = entry m j i.
Proof.
  intros Hrect Hi.
  assert (H := f_equal (fun l => l !! j) (column_defined m cols i Hrect Hi)).
  cbn beta in H. rewrite !list_lookup_fmap in H. unfold entry.
  destruct (m !! j) as [row|] eqn:Hrow; cbn in *.
  - destruct (column m i !! j); cbn in H; congruence.
  - destruct (column m i !! j); cbn in H; congruence.
Qed.

Lemma transpose_rectangular row m :
  rectangular (row :: m) (length row) ->
  transpose (row :: m) = Ok (defined (columns (row :: m) (length row))).
Proof.
  intros Hrect. rewrite transpose_cons. f_equal.
  apply list_eq. intros i. unfold defined, columns.
  rewrite list_lookup_imap, !list_lookup_fmap.
  destruct (decide (i < length row)%nat) as [Hi|Hi].
  - destruct (lookup_lt_is_Some_2 row i Hi) as [x Hx]. rewrite Hx.
    rewrite lookup_seq_lt by exact Hi. cbn.
    f_equal. apply (column_defined _ _ _ Hrect Hi).
  - rewrite lookup_ge_None_2 by lia.
    rewrite lookup_seq_ge by lia. reflexivity.
Qed.

Lemma columns_rectangular m cols :
  rectangular m cols -> rectangular (columns m cols) (length m).
Proof.
  intros Hrect. unfold rectangular, columns. apply Forall_fmap, Forall_forall.
  intros i Hi. apply elem_of_seq in Hi. cbn. apply (column_length _ cols); [exact Hrect|lia].
Qed.

Lemma columns_entry m cols i j :
  rectangular m cols -> (i < cols)%nat -> entry (columns m cols) i j = entry m j i.
Proof.
  intros Hrect Hi. unfold entry at 1, columns.
  rewrite list_lookup_fmap, lookup_seq_lt by exact Hi. cbn.
  apply (column_lookup _ cols); assumption.
Qed.

Lemma columns_columns m cols :
  rectangular m cols -> columns (columns m cols) (length m) = m.
Proof.
  intros Hrect. apply list_eq. intros j.
  unfold columns at 1. rewrite list_lookup_fmap.
  destruct (decide (j < length m)%nat) as [Hj|Hj].
  - rewrite lookup_seq_lt by exact Hj. cbn.
    destruct (lookup_lt_is_Some_2 m j Hj) as [row Hrow]. rewrite Hrow. f_equal.
    apply list_eq. intros i.
    rewrite (column_lookup _ (length m)); [|apply columns_rectangular, Hrect|exact Hj].
    destruct (decide (i < cols)%nat) as [Hi|Hi].
    + rewrite columns_entry by assumption. unfold entry. rewrite Hrow. reflexivity.
    + unfold entry, columns. rewrite list_lookup_fmap, lookup_seq_ge by lia. cbn.
      symmetry. apply lookup_ge_None_2.
      unfold rectangular in Hrect. rewrite Forall_forall in Hrect.
      rewrite (Hrect row); [lia|].
      eapply list_elem_of_lookup_2, Hrow.
  - rewrite lookup_seq_ge by lia. cbn. symmetry. apply lookup_ge_None_2. lia.
Qed.
End transpose_facts.

Section transpose_claims.
Context {T : Type}.
Implicit Types (m : list (list T)) (row : list T).

Lemma entry_defined m i j : entry (defined m) i j = Some <$> entry m i j.
Proof.
  unfold entry, defined. rewrite list_lookup_fmap.
  destruct (m !! i) as [row|]; cbn; [|reflexivity].
  apply list_lookup_fmap.
Qed.

Lemma entry_in_range m cols i j :
  rectangular m cols -> (i < length m)%nat -> (j < cols)%nat -> is_Some (entry m i j).
Proof.
  intros Hrect Hi Hj. unfold entry.
  destruct (lookup_lt_is_Some_2 m i Hi) as [row Hrow]. rewrite Hrow. cbn.
  apply lookup_lt_is_Some_2.
  unfold rectangular in Hrect. rewrite Forall_forall in Hrect.
  rewrite (Hrect row); [exact Hj|]. eapply list_elem_of_lookup_2, Hrow.
Qed.

Lemma columns_length m cols : length (columns m cols) = cols.
Proof. unfold columns. rewrite length_fmap. apply length_seq. Qed.

Lemma transpose_columns m cols :
  m <> [] -> rectangular m cols -> transpose m = Ok (defined (columns m cols)).
Proof.
  intros Hne Hrect. destruct m as [|row m']; [congruence|].
  assert (length row = cols) as <-.
  { unfold rectangular in Hrect. apply Forall_cons in Hrect. tauto. }
  apply transpose_rectangular, Hrect.
Qed.

Lemma transpose_two_rows (A B : list T) :
  transpose [A; B] = Ok (imap (fun i _ => [A !! i; B !! i]) A).
Proof. reflexivity. Qed.

(** C10 (amended). For every non-empty matrix [m] whose rows all have
    [cols] entries, [transpose m] returns a matrix of [cols] rows, all
    of whose entries are defined, with [(transpose m)[i][j] = m[j][i]]
    for all [i < cols] and [j < length m]; when [m] has at least one
    column, transposing the result gives [m] back. For two rows [A]
    and [B], [transpose [A, B]] has one row per index [i] of [A], and
    it is [[A[i], B[i]]]. *)
Theorem transpose_rectangular_spec m (cols : nat) (A B : list T) :
  m <> [] -> rectangular m cols ->
  (exists t,
      transpose m = Ok (defined t)
      /\ length t = cols
      /\ (forall i j, (i < cols)%nat -> (j < length m)%nat ->
            is_Some (entry m j i) /\ entry (defined t) i j = Some (entry m j i))
      /\ ((0 < cols)%nat -> transpose t = Ok (defined m)))
  /\ (exists t2,
        transpose [A; B] = Ok t2
        /\ length t2 = length A
        /\ forall i, (i < length A)%nat -> t2 !! i = Some [A !! i; B !! i]).
Proof.
  intros Hne Hrect. split.
  - exists (columns m cols). split; [|split; [|split]].
    + apply transpose_columns; assumption.
    + apply columns_length.
    + intros i j Hi Hj.
      destruct (entry_in_range m cols j i Hrect Hj Hi) as [x Hx].
      split; [eauto|].
      rewrite entry_defined, columns_entry by assumption.
      rewrite Hx. reflexivity.
    + intros Hcols.
      rewrite (transpose_columns (columns m cols) (length m)).
      * rewrite columns_columns by exact Hrect. reflexivity.
      * intros Hnil. apply (f_equal length) in Hnil.
        rewrite columns_length in Hnil. cbn in Hnil. lia.
      * apply columns_rectangular, Hrect.
  - exists (imap (fun i _ => [A !! i; B !! i]) A). split; [|split].
    + apply transpose_two_rows.
    + apply length_imap.
    + intros i Hi. rewrite list_lookup_imap.
      destruct (lookup_lt_is_Some_2 A i Hi) as [x Hx]. rewrite Hx. reflexivity.
Qed.
End transpose_claims.

(** The theorem at the two-row matrix of the parties' arrays. *)
Lemma transpose_rectangular_spec_witness :
  (exists t,
      transpose [[1; 2; 3]; [4; 5; 6]] = Ok (defined t)
      /\ length t = 3%nat
      /\ (forall i j, (i < 3)%nat -> (j < length [[1; 2; 3]; [4; 5; 6]])%nat ->
            is_Some (entry [[1; 2; 3]; [4; 5; 6]] j i)
            /\ entry (defined t) i j = Some (entry [[1; 2; 3]; [4; 5; 6]] j i))
      /\ ((0 < 3)%nat -> transpose t = Ok (defined [[1; 2; 3]; [4; 5; 6]])))
  /\ (exists t2,
        transpose [[1; 2]; [7]] = Ok t2
        /\ length t2 = length [1; 2]
        /\ forall i, (i < length [1; 2])%nat -> t2 !! i = Some [[1; 2] !! i; [7] !! i]).
Proof.
  apply (transpose_rectangular_spec [[1; 2; 3]; [4; 5; 6]] 3 [1; 2] [7]).
  - discriminate.
  - unfold rectangular. repeat constructor.
Defined.

(** C10 as stated fails on the matrix [[[]]], one row and no column: its
    transpose is the empty matrix, and transposing that throws. *)
Lemma transpose_involution_counterexample :
  ~ (forall (m : list (list Z)) (cols : nat),
       m <> [] -> rectangular m cols ->
       exists t, transpose m = Ok (defined t) /\ transpose t = Ok (defined m)).
Proof.
  intros H. destruct (H [[]] 0%nat) as (t & Ht & Htt).
  - discriminate.
  - unfold rectangular. repeat constructor.
  - cbn in Ht. injection Ht as Ht. destruct t; [|discriminate].
    cbn in Htt. discriminate.
Qed.

(** ** The five-transaction plan *)

Section plan_claims.
Context {W : Type} (env : Env W).

(** What [getTransactions] returns once every query has been answered
    and the escrow account has an identifier. *)
Lemma getTransactions_returns (swapData : SwapData.t)
    (clientAddress providerAddress swapAddress : Address) (pkh : Bytes)
    (w w1 w2 w3 w4 w5 : W) (transferSold transferBought changePubKey withdraw : Z)
    (swapAccount : AccountState.t) (buyTokenId sellTokenId : Z) :
  let sell := SwapData.sell swapData in
  let buy := SwapData.buy swapData in
  getTransactionFee env FeeTransfer providerAddress (Asset.token sell) w
    = (Ok transferSold, w1) ->
  getTransactionFee env FeeTransfer providerAddress (Asset.token buy) w1
    = (Ok transferBought, w2) ->
  getTransactionFee env (FeeChangePubKey false) providerAddress (Asset.token sell) w2
    = (Ok changePubKey, w3) ->
  getTransactionFee env FeeWithdraw providerAddress (Asset.token sell) w3
    = (Ok withdraw, w4) ->
  getState env (Some swapAddress) w4 = (Ok swapAccount, w5) ->
  id_not_set (AccountState.id swapAccount) = false ->
  resolveTokenId env (Asset.token buy) = Ok buyTokenId ->
  resolveTokenId env (Asset.token sell) = Ok sellTokenId ->
  getTransactions env swapData clientAddress providerAddress swapAddress pkh w
  = (Ok [
      txChangePubKey env swapData clientAddress swapAccount
        (default 0 (AccountState.id swapAccount)) pkh sellTokenId changePubKey;
      txTransfer swapAccount (default 0 (AccountState.id swapAccount)) buyTokenId
        clientAddress (Asset.amount buy) transferBought 1 0 (SwapData.timeout swapData);
      match SwapData.withdrawType swapData with
      | Some L1 =>
          txWithdraw swapAccount (default 0 (AccountState.id swapAccount)) sellTokenId
            providerAddress (Asset.amount sell) withdraw 2 0 (MAX_TIMESTAMP env)
      | _ =>
          txTransfer swapAccount (default 0 (AccountState.id swapAccount)) sellTokenId
            providerAddress (Asset.amount sell) transferSold 2 0 (MAX_TIMESTAMP env)
      end;
      txTransfer swapAccount (default 0 (AccountState.id swapAccount)) sellTokenId
        clientAddress (Asset.amount sell) transferSold 1
        (SwapData.timeout swapData + 1) (MAX_TIMESTAMP env);
      txTransfer swapAccount (default 0 (AccountState.id swapAccount)) buyTokenId
        providerAddress 0 transferBought 2
        (SwapData.timeout swapData + 1) (MAX_TIMESTAMP env)
    ], w5).
Proof.
  intros sell buy H1 H2 H3 H4 H5 Hid Hbuy Hsell.
  unfold getTransactions, bind. fold sell buy.
  rewrite H1, H2, H3, H4, H5, Hid.
  unfold liftR. rewrite Hbuy, Hsell. reflexivity.
Qed.

(** Conversely, a plan that [getTransactions] returned came from
    answered queries. *)
Lemma getTransactions_inv (swapData : SwapData.t)
    (clientAddress providerAddress swapAddress : Address) (pkh : Bytes)
    (w w' : W) (plan : list Tx.t) :
  getTransactions env swapData clientAddress providerAddress swapAddress pkh w
    = (Ok plan, w') ->
  exists w1 w2 w3 w4 transferSold transferBought changePubKey withdraw
         swapAccount buyTokenId sellTokenId,
    getTransactionFee env FeeTransfer providerAddress
      (Asset.token (SwapData.sell swapData)) w = (Ok transferSold, w1)
    /\ getTransactionFee env FeeTransfer providerAddress
         (Asset.token (SwapData.buy swapData)) w1 = (Ok transferBought, w2)
    /\ getTransactionFee env (FeeChangePubKey false) providerAddress
         (Asset.token (SwapData.sell swapData)) w2 = (Ok changePubKey, w3)
    /\ getTransactionFee env FeeWithdraw providerAddress
         (Asset.token (SwapData.sell swapData)) w3 = (Ok withdraw, w4)
    /\ getState env (Some swapAddress) w4 = (Ok swapAccount, w')
    /\ id_not_set (AccountState.id swapAccount) = false
    /\ resolveTokenId env (Asset.token (SwapData.buy swapData)) = Ok buyTokenId
    /\ resolveTokenId env (Asset.token (SwapData.sell swapData)) = Ok sellTokenId.
Proof.
  unfold getTransactions, bind, liftR, throw, ret.
  destruct (getTransactionFee env FeeTransfer providerAddress _ w)
    as [[f1|e] w1] eqn:H1; [|discriminate].
  destruct (getTransactionFee env FeeTransfer providerAddress _ w1)
    as [[f2|e] w2] eqn:H2; [|discriminate].
  destruct (getTransactionFee env (FeeChangePubKey false) providerAddress _ w2)
    as [[f3|e] w3] eqn:H3; [|discriminate].
  destruct (getTransactionFee env FeeWithdraw providerAddress _ w3)
    as [[f4|e] w4] eqn:H4; [|discriminate].
  destruct (getState env (Some swapAddress) w4) as [[acc|e] w5] eqn:H5; [|discriminate].
  destruct (id_not_set (AccountState.id acc)) eqn:Hid; [discriminate|].
  destruct (resolveTokenId env (Asset.token (SwapData.buy swapData)))
    as [b|e] eqn:Hb; [|discriminate].
  destruct (resolveTokenId env (Asset.token (SwapData.sell swapData)))
    as [s|e] eqn:Hs; [|discriminate].
  intros [= _ <-].
  exists w1, w2, w3, w4, f1, f2, f3, f4, acc, b, s. repeat split; assumption.
Qed.

(** The nonces of a returned plan, by position. *)
Lemma getTransactions_nonces (swapData : SwapData.t)
    (clientAddress providerAddress swapAddress : Address) (pkh : Bytes)
    (w w' : W) (plan : list Tx.t) :
  getTransactions env swapData clientAddress providerAddress swapAddress pkh w
    = (Ok plan, w') ->
  Tx.nonce <$> plan = [0; 1; 2; 1; 2].
Proof.
  intros H. destruct (getTransactions_inv _ _ _ _ _ _ _ _ H)
    as (w1 & w2 & w3 & w4 & f1 & f2 & f3 & f4 & acc & b & s
        & H1 & H2 & H3 & H4 & H5 & Hid & Hb & Hs).
  rewrite (getTransactions_returns _ _ _ _ _ _ _ _ _ _ _ _ _ _ _ _ _ _
             H1 H2 H3 H4 H5 Hid Hb Hs) in H.
  injection H as <-. cbn. destruct (SwapData.withdrawType swapData) as [[]|]; reflexivity.
Qed.

(** C1. Once the ledger has answered the fee and account queries, the
    escrow account has an identifier and both tokens resolve,
    [getTransactions] returns exactly 5 descriptors, in this order:
    0 a ChangePubKey with nonce 0 and validity [0, MAX_TIMESTAMP];
    1 a Transfer of the buy token from the escrow account to the
    client for [buy.amount], nonce 1, validity [0, timeout];
    2 a Withdraw (when [withdrawType] is L1) or a Transfer of the sell
    token to the provider for [sell.amount], nonce 2, validity
    [0, MAX_TIMESTAMP];
    3 a Transfer of the sell token back to the client for
    [sell.amount], nonce 1, validity [timeout+1, MAX_TIMESTAMP];
    4 a zero-amount Transfer of the buy token to the provider, nonce 2,
    validity [timeout+1, MAX_TIMESTAMP]. *)
Theorem getTransactions_five (swapData : SwapData.t)
    (clientAddress providerAddress swapAddress : Address) (pkh : Bytes)
    (w w1 w2 w3 w4 w5 : W) (transferSold transferBought changePubKey withdraw : Z)
    (swapAccount : AccountState.t) (buyTokenId sellTokenId : Z) :
  let sell := SwapData.sell swapData in
  let buy := SwapData.buy swapData in
  let timeout := SwapData.timeout swapData in
  let escrow := Some (AccountState.address swapAccount) in
  getTransactionFee env FeeTransfer providerAddress (Asset.token sell) w
    = (Ok transferSold, w1) ->
  getTransactionFee env FeeTransfer providerAddress (Asset.token buy) w1
    = (Ok transferBought, w2) ->
  getTransactionFee env (FeeChangePubKey false) providerAddress (Asset.token sell) w2
    = (Ok changePubKey, w3) ->
  getTransactionFee env FeeWithdraw providerAddress (Asset.token sell) w3
    = (Ok withdraw, w4) ->
  getState env (Some swapAddress) w4 = (Ok swapAccount, w5) ->
  id_not_set (AccountState.id swapAccount) = false ->
  resolveTokenId env (Asset.token buy) = Ok buyTokenId ->
  resolveTokenId env (Asset.token sell) = Ok sellTokenId ->
  exists t0 t1 t2 t3 t4,
    getTransactions env swapData clientAddress providerAddress swapAddress pkh w
      = (Ok [t0; t1; t2; t3; t4], w5)
    /\ (Tx.type t0 = "ChangePubKey" /\ Tx.account t0 = escrow /\ Tx.nonce t0 = 0
        /\ Tx.validFrom t0 = 0 /\ Tx.validUntil t0 = MAX_TIMESTAMP env)
    /\ (Tx.type t1 = "Transfer" /\ Tx.tokenId t1 = Some buyTokenId
        /\ Tx.from t1 = escrow /\ Tx.to t1 = Some clientAddress
        /\ Tx.amount t1 = Some (Asset.amount buy) /\ Tx.nonce t1 = 1
        /\ Tx.validFrom t1 = 0 /\ Tx.validUntil t1 = timeout)
    /\ (match SwapData.withdrawType swapData with
        | Some L1 => Tx.type t2 = "Withdraw" /\ Tx.ethAddress t2 = Some providerAddress
        | _ => Tx.type t2 = "Transfer" /\ Tx.to t2 = Some providerAddress
        end
        /\ Tx.tokenId t2 = Some sellTokenId /\ Tx.from t2 = escrow
        /\ Tx.amount t2 = Some (Asset.amount sell) /\ Tx.nonce t2 = 2
        /\ Tx.validFrom t2 = 0 /\ Tx.validUntil t2 = MAX_TIMESTAMP env)
    /\ (Tx.type t3 = "Transfer" /\ Tx.tokenId t3 = Some sellTokenId
        /\ Tx.from t3 = escrow /\ Tx.to t3 = Some clientAddress
        /\ Tx.amount t3 = Some (Asset.amount sell) /\ Tx.nonce t3 = 1
        /\ Tx.validFrom t3 = timeout + 1 /\ Tx.validUntil t3 = MAX_TIMESTAMP env)
    /\ (Tx.type t4 = "Transfer" /\ Tx.tokenId t4 = Some buyTokenId
        /\ Tx.from t4 = escrow /\ Tx.to t4 = Some providerAddress
        /\ Tx.amount t4 = Some 0 /\ Tx.nonce t4 = 2
        /\ Tx.validFrom t4 = timeout + 1 /\ Tx.validUntil t4 = MAX_TIMESTAMP env).
Proof.
  intros sell buy timeout escrow H1 H2 H3 H4 H5 Hid Hbuy Hsell.
  do 5 eexists. split.
  - apply (getTransactions_returns swapData clientAddress providerAddress swapAddress pkh
             w w1 w2 w3 w4 w5 _ _ _ _ _ _ _ H1 H2 H3 H4 H5 Hid Hbuy Hsell).
  - cbn. destruct (SwapData.withdrawType swapData) as [[]|]; cbn; repeat split; reflexivity.
Qed.
End plan_claims.

(** The theorem on the terms of the test suite, in a world that knows the
    escrow account. *)
Lemma getTransactions_five_witness :
  exists t0 t1 t2 t3 t4,
    getTransactions Mock.env Mock.swapData "0xc11e" "0x9707" Mock.escrow [Byte.x2a]
      (Mock.world_at 1700000000000 None None Null)
    = (Ok [t0; t1; t2; t3; t4], Mock.world_at 1700000000000 None None Null)
    /\ Tx.nonce <$> [t0; t1; t2; t3; t4] = [0; 1; 2; 1; 2]
    /\ Tx.amount <$> [t0; t1; t2; t3; t4]
       = [None; Some 1000000000000000000000; Some 1000000000000000000;
          Some 1000000000000000000; Some 0].
Proof.
  pose proof (getTransactions_five Mock.env Mock.swapData "0xc11e" "0x9707" Mock.escrow
                [Byte.x2a]
                (Mock.world_at 1700000000000 None None Null)
                (Mock.world_at 1700000000000 None None Null)
                (Mock.world_at 1700000000000 None None Null)
                (Mock.world_at 1700000000000 None None Null)
                (Mock.world_at 1700000000000 None None Null)
                (Mock.world_at 1700000000000 None None Null)
                10 10 20 30
                {| AccountState.address := Mock.escrow; AccountState.id := Some 42;
                   AccountState.committed_balances := ∅ |}
                1 0
                eq_refl eq_refl eq_refl eq_refl eq_refl eq_refl eq_refl eq_refl) as H.
  cbv zeta in H.
  destruct H as (t0 & t1 & t2 & t3 & t4 & Hrun & H0 & H1 & H2 & H3 & H4).
  exists t0, t1, t2, t3, t4. split; [exact Hrun|].
  cbn in H2.
  destruct H0 as (_ & Ha0 & Hn0 & _), H1 as (_ & _ & _ & _ & Ha1 & Hn1 & _),
           H2 as (_ & _ & _ & Ha2 & Hn2 & _), H3 as (_ & _ & _ & _ & Ha3 & Hn3 & _),
           H4 as (_ & _ & _ & _ & Ha4 & Hn4 & _).
  split; cbn.
  - rewrite Hn0, Hn1, Hn2, Hn3, Hn4. reflexivity.
  - rewrite Ha1, Ha2, Ha3, Ha4.
    injection Hrun as Ht0 _. rewrite <- Ht0. reflexivity.
Defined.

(** While the ledger does not know the escrow account, there is no plan. *)
Example getTransactions_unknown_account :
  getTransactions Mock.env Mock.swapData "0xc11e" "0x9707" Mock.escrow [Byte.x2a]
    Mock.fresh_world
  = (Throw (Error "Swap Account ID not set - can't sign transactions"), Mock.fresh_world).
Proof. vm_compute. reflexivity. Qed.

(** ** Exclusivity of the two outcomes on a nonce-tracking ledger *)

Section ledger_claims.
Variable policy : Ledger.t -> Tx.t -> Z -> bool.
Variable plan : list Tx.t.

Lemma invariant_init : Ledger.invariant plan Ledger.init.
Proof.
  split.
  - intros i Hi. cbn in Hi. apply elem_of_nil in Hi. contradiction.
  - intros i j tx tx' Hi. cbn in Hi. apply elem_of_nil in Hi. contradiction.
Qed.

Lemma invariant_submit (l : Ledger.t) (i : nat) (time : Z) :
  Ledger.invariant plan l -> Ledger.invariant plan (Ledger.submit policy plan l i time).
Proof.
  intros [Hcons Hinj]. unfold Ledger.submit.
  destruct (plan !! i) as [tx|] eqn:Htx; [|split; assumption].
  destruct (Ledger.admits policy l tx time) eqn:Hadm; [|split; assumption].
  assert (Hfresh : Tx.nonce tx ∉ Ledger.consumed l).
  { unfold Ledger.admits in Hadm. rewrite !andb_true_iff in Hadm.
    destruct Hadm as [[[Hf _] _] _]. apply bool_decide_eq_true in Hf. exact Hf. }
  split; cbn.
  - intros k Hk. apply elem_of_cons in Hk as [->|Hk].
    + exists tx. split; [exact Htx|]. set_solver.
    + destruct (Hcons k Hk) as (tx' & Htx' & Hin). exists tx'. split; [exact Htx'|]. set_solver.
  - intros k j tk tj Hk Hj Hpk Hpj Hnonce.
    apply elem_of_cons in Hk as [->|Hk]; apply elem_of_cons in Hj as [->|Hj].
    + reflexivity.
    + exfalso. destruct (Hcons j Hj) as (tx' & Htx' & Hin).
      rewrite Hpj in Htx'. injection Htx' as <-.
      rewrite Htx in Hpk. injection Hpk as <-. rewrite Hnonce in Hfresh. contradiction.
    + exfalso. destruct (Hcons k Hk) as (tx' & Htx' & Hin).
      rewrite Hpk in Htx'. injection Htx' as <-.
      rewrite Htx in Hpj. injection Hpj as <-. rewrite <- Hnonce in Hfresh. contradiction.
    + eapply Hinj; eassumption.
Qed.

Lemma reachable_invariant (l : Ledger.t) :
  Ledger.reachable policy plan l -> Ledger.invariant plan l.
Proof.
  unfold Ledger.reachable. revert l.
  apply (rtc_ind_r (Ledger.invariant plan) Ledger.init).
  - apply invariant_init.
  - intros l1 l2 _ Hstep IH. destruct Hstep as [l1 i time].
    apply invariant_submit, IH.
Qed.

(** Two positions of the plan that carry the same nonce are never both
    accepted. *)
Lemma same_nonce_exclusive (l : Ledger.t) (i j : nat) (n : Z) :
  Ledger.reachable policy plan l ->
  (Tx.nonce <$> plan) !! i = Some n -> (Tx.nonce <$> plan) !! j = Some n -> i <> j ->
  ~ (i ∈ Ledger.accepted l /\ j ∈ Ledger.accepted l).
Proof.
  intros Hreach Hi Hj Hne [Hai Haj].
  destruct (reachable_invariant l Hreach) as [_ Hinj].
  rewrite list_lookup_fmap in Hi, Hj.
  destruct (plan !! i) as [ti|] eqn:Hti; [|discriminate].
  destruct (plan !! j) as [tj|] eqn:Htj; [|discriminate].
  cbn in Hi, Hj. apply Hne, (Hinj i j ti tj); try assumption. congruence.
Qed.
End ledger_claims.

(** C2. On a ledger that accepts a transaction only if its nonce has not
    been consumed before and the time lies in its validity window
    (whatever else it requires), for a plan that [getTransactions]
    returned: in no reachable ledger state have transactions 1 and 2
    and also transactions 3 and 4 been accepted, whatever the order and
    the times of the submissions. *)
Theorem plan_outcomes_exclusive {W : Type} (env : Env W) (swapData : SwapData.t)
    (clientAddress providerAddress swapAddress : Address) (pkh : Bytes) (w w' : W)
    (plan : list Tx.t) (policy : Ledger.t -> Tx.t -> Z -> bool) (l : Ledger.t) :
  getTransactions env swapData clientAddress providerAddress swapAddress pkh w
    = (Ok plan, w') ->
  Ledger.reachable policy plan l ->
  ~ ((1%nat ∈ Ledger.accepted l /\ 2%nat ∈ Ledger.accepted l)
     /\ (3%nat ∈ Ledger.accepted l /\ 4%nat ∈ Ledger.accepted l)).
Proof.
  intros Hplan Hreach [[H1 _] [H3 _]].
  apply getTransactions_nonces in Hplan.
  apply (same_nonce_exclusive policy plan l 1 3 1 Hreach); [| |lia|split; assumption].
  - rewrite Hplan. reflexivity.
  - rewrite Hplan. reflexivity.
Qed.

(** The theorem on the test double: pay-buyer accepted before the
    timeout, then refund, pay-seller and nonce-burn submitted after it. *)
Lemma plan_outcomes_exclusive_witness :
  Ledger.accepted Mock.ledger = [2%nat; 1%nat]
  /\ ~ ((1%nat ∈ Ledger.accepted Mock.ledger /\ 2%nat ∈ Ledger.accepted Mock.ledger)
        /\ (3%nat ∈ Ledger.accepted Mock.ledger /\ 4%nat ∈ Ledger.accepted Mock.ledger)).
Proof.
  split; [vm_compute; reflexivity|].
  apply (plan_outcomes_exclusive Mock.env Mock.swapData "0xc11e" "0x9707" Mock.escrow
           [Byte.x2a] (Mock.world_at 1700000000000 None None Null)
           (Mock.world_at 1700000000000 None None Null) Mock.plan Mock.permissive Mock.ledger).
  - reflexivity.
  - unfold Ledger.reachable, Mock.ledger.
    eapply rtc_l; [apply Ledger.step_submit with (i := 1%nat) (time := 1700000100)|].
    eapply rtc_l; [apply Ledger.step_submit with (i := 3%nat) (time := 1700000700)|].
    eapply rtc_l; [apply Ledger.step_submit with (i := 2%nat) (time := 1700000800)|].
    eapply rtc_l; [apply Ledger.step_submit with (i := 4%nat) (time := 1700000900)|].
    apply rtc_refl.
Defined.

(** ** The authorization of the key registration *)

Section registration_claims.
Context {W : Type} (env : Env W).

(** What the key registration of a returned plan carries: the salt and
    the code hash of the swap terms, and as creator the [clientAddress]
    argument. *)
Lemma getTransactions_registration (swapData : SwapData.t)
    (clientAddress providerAddress swapAddress : Address) (pkh : Bytes)
    (w w' : W) (plan : list Tx.t) :
  getTransactions env swapData clientAddress providerAddress swapAddress pkh w
    = (Ok plan, w') ->
  auth_triple <$> registration_auth plan
  = Some (clientAddress, Create2.salt (SwapData.create2 swapData),
          Create2.hash (SwapData.create2 swapData)).
Proof.
  intros H. destruct (getTransactions_inv env _ _ _ _ _ _ _ _ H)
    as (w1 & w2 & w3 & w4 & f1 & f2 & f3 & f4 & acc & b & s
        & H1 & H2 & H3 & H4 & H5 & Hid & Hb & Hs).
  rewrite (getTransactions_returns env _ _ _ _ _ _ _ _ _ _ _ _ _ _ _ _ _ _
             H1 H2 H3 H4 H5 Hid Hb Hs) in H.
  injection H as <-. reflexivity.
Qed.

(** The salt and the code hash always agree with the derivation; the
    creator agrees exactly when the CREATE2 creator of the terms is the
    client's own address. *)
Lemma registration_triple_agrees_iff (swapData : SwapData.t)
    (clientAddress providerAddress swapAddress : Address) (pkh : Bytes)
    (w w' : W) (plan : list Tx.t) :
  getTransactions env swapData clientAddress providerAddress swapAddress pkh w
    = (Ok plan, w') ->
  auth_triple <$> registration_auth plan = Some (derivation_triple (create2Params swapData))
  <-> clientAddress = Create2.creator (SwapData.create2 swapData).
Proof.
  intros H. rewrite (getTransactions_registration _ _ _ _ _ _ _ _ H).
  unfold derivation_triple, create2Params. cbn. split.
  - intros [= ->]. reflexivity.
  - intros ->. reflexivity.
Qed.
End registration_claims.

(** ** The party state machine *)

Section client_claims.
Context {W Sg : Type} (env : Env W) (base : Base W Sg) (musig : Musig Sg).
Implicit Types (s : St W Sg) (p : Party.t Sg) (w : W).

Lemma state_eta s : mkSt (party s) (world s) = s.
Proof. destruct s. reflexivity. Qed.

Lemma guard_passes (st : SwapState) : bool_decide (st <> st) = false.
Proof. apply bool_decide_eq_false_2. intros H. apply H. reflexivity. Qed.

Ltac guard_fails H :=
  unfold bind, getP, gets, throw; cbn;
  rewrite (bool_decide_eq_true_2 _ H); reflexivity.

(** C7. Invoked in any state other than the one it requires,
    [prepareSwap] (Empty), [signSwap] (Prepared), [depositFunds]
    (Signed), [wait] (Deposited) and [loadSwap] (Empty) each throw
    their invalid-state error and leave the party (its state, swap
    terms and transaction plan included) and the world as they were. *)
Theorem guards_reject_wrong_state s :
  (Party.state (party s) <> empty ->
     forall data providerPubkey providerAddress providerPrecommitments,
       prepareSwap env musig data providerPubkey providerAddress providerPrecommitments s
       = (Throw (Error "In the middle of a swap - can't start a new one"), s))
  /\ (Party.state (party s) <> prepared ->
        forall dataCommitments dataShares,
          signSwap env musig dataCommitments dataShares s
          = (Throw (Error "Not prepared for the swap"), s))
  /\ (Party.state (party s) <> signed ->
        forall depositType autoApprove,
          depositFunds base depositType autoApprove s
          = (Throw (Error "Not yet signed the transactions - can't deposit funds"), s))
  /\ (Party.state (party s) <> deposited ->
        forall action,
          wait env action s
          = (Throw (Error "No funds on the swap account - nothing to wait for"), s))
  /\ (Party.state (party s) <> empty ->
        forall swapData signedTransactions,
          loadSwap env swapData signedTransactions s
          = (Throw (Error "In the middle of a swap - can't switch to a new one"), s)).
Proof.
  repeat split; intros H; intros.
  - unfold prepareSwap. guard_fails H.
  - unfold signSwap. guard_fails H.
  - unfold depositFunds. guard_fails H.
  - unfold wait. guard_fails H.
  - unfold loadSwap. guard_fails H.
Qed.

(** C6. Whatever the state of the party, if the current time is
    strictly before [swapData.timeout], [cancelSwap] throws its
    too-early error and changes neither the party nor the world. *)
Theorem cancelSwap_too_early s (swapData : SwapData.t) :
  Party.swapData (party s) = Some swapData ->
  now env (world s) < SwapData.timeout swapData * 1000 ->
  cancelSwap env base s = (Throw (Error "Too early to cancel the swap"), s).
Proof.
  intros Hdata Hearly.
  unfold cancelSwap, bind, liftW, gets, getObj, throw. cbn. rewrite Hdata.
  apply Z.ltb_lt in Hearly. rewrite Hearly. rewrite state_eta. reflexivity.
Qed.

(** Without swap terms ([this.swapData] still [undefined]) the time check
    itself throws, again before anything is changed. *)
Lemma cancelSwap_without_terms s :
  Party.swapData (party s) = None -> cancelSwap env base s = (Throw TypeError, s).
Proof.
  intros Hdata. unfold cancelSwap, bind, liftW, gets, getObj. cbn.
  rewrite Hdata, state_eta. reflexivity.
Qed.

(** Where the reported balances have an entry for the sell token:
    invoked in state Empty with a plan whose first transaction exists,
    [loadSwap] stores the terms and the plan and sets the state to
    Signed if the sell amount is strictly greater than that balance,
    and to Deposited otherwise (equal amounts included). *)
Lemma loadSwap_infers_state s (swapData : SwapData.t) (signedTxs : list Tx.t)
    (tx0 : Tx.t) (swapAccount : AccountState.t) (w1 : W) (balance : Z) :
  Party.state (party s) = empty ->
  signedTxs !! 0%nat = Some tx0 ->
  getState env (Tx.account tx0) (world s) = (Ok swapAccount, w1) ->
  AccountState.committed_balances swapAccount !! Asset.token (SwapData.sell swapData)
    = Some balance ->
  exists s',
    loadSwap env swapData signedTxs s = (Ok tt, s')
    /\ Party.swapData (party s') = Some swapData
    /\ Party.transactions (party s') = Some signedTxs
    /\ world s' = w1
    /\ (balance < Asset.amount (SwapData.sell swapData) -> Party.state (party s') = signed)
    /\ (Asset.amount (SwapData.sell swapData) <= balance ->
        Party.state (party s') = deposited).
Proof.
  intros Hstate Htx0 Hacc Hbal.
  unfold loadSwap, bind, getP, gets, setP, modify, liftR, liftW. cbn.
  rewrite Hstate, guard_passes. cbn. rewrite Htx0. cbn. rewrite Hacc. cbn. rewrite Hbal. cbn.
  eexists. split; [reflexivity|]. cbn. repeat split.
  - intros Hlt. apply Z.ltb_lt in Hlt. rewrite Hlt. reflexivity.
  - intros Hle. apply Z.ltb_ge in Hle. rewrite Hle. reflexivity.
Qed.

(** C8. The escrow account holding nothing of the sell token is the
    case the inference misses. Invoked in state Empty with a plan whose
    first transaction exists, when the balances the ledger reports for
    the escrow account have no entry for the sell token, [loadSwap]
    hands [undefined] to [gt], which throws: the call fails, the state
    is still Empty and not Signed, and the terms and the plan are
    stored all the same. *)
Theorem loadSwap_misses_absent_balance s (swapData : SwapData.t) (signedTxs : list Tx.t)
    (tx0 : Tx.t) (swapAccount : AccountState.t) (w1 : W) :
  Party.state (party s) = empty ->
  signedTxs !! 0%nat = Some tx0 ->
  getState env (Tx.account tx0) (world s) = (Ok swapAccount, w1) ->
  AccountState.committed_balances swapAccount !! Asset.token (SwapData.sell swapData)
    = None ->
  exists s',
    loadSwap env swapData signedTxs s = (Throw (Error "invalid BigNumber value"), s')
    /\ Party.state (party s') = empty
    /\ Party.state (party s') <> signed
    /\ Party.swapData (party s') = Some swapData
    /\ Party.transactions (party s') = Some signedTxs
    /\ world s' = w1.
Proof.
  intros Hstate Htx0 Hacc Hbal.
  unfold loadSwap, bind, getP, gets, setP, modify, liftR, liftW. cbn.
  rewrite Hstate, guard_passes. cbn. rewrite Htx0. cbn. rewrite Hacc. cbn. rewrite Hbal. cbn.
  eexists. split; [reflexivity|]. cbn. rewrite Hstate. repeat split. discriminate.
Qed.


(** C4 (amended). In state Deposited, when the escrow account holds at
    least [buy.amount] of the buy token, [finalizeSwap] submits
    transaction 0 in a batch of its own, then transaction 1 in a batch
    of its own, and when both submissions succeed sets the state to
    Finalized and returns the hashes of the second. In state Deposited
    at or after the timeout, [cancelSwap] does the same with
    transactions 0 and 3. *)
Theorem terminal_paths_submit_two_batches s (swapData : SwapData.t) (txs : list Tx.t) :
  Party.state (party s) = deposited ->
  Party.swapData (party s) = Some swapData ->
  Party.transactions (party s) = Some txs ->
  (forall address swapAccount balance w1 w2 w3 hashes0 hashes1,
      swapAddress base (party s) = Ok address ->
      getState env (Some address) (world s) = (Ok swapAccount, w1) ->
      AccountState.committed_balances swapAccount !! Asset.token (SwapData.buy swapData)
        = Some balance ->
      Asset.amount (SwapData.buy swapData) <= balance ->
      sendBatch base [txs !! 0%nat] (Asset.token (SwapData.sell swapData)) w1
        = (Ok hashes0, w2) ->
      sendBatch base [txs !! 1%nat] (Asset.token (SwapData.sell swapData)) w2
        = (Ok hashes1, w3) ->
      finalizeSwap env base s
      = (Ok hashes1, mkSt (Party.set_state finalized (party s)) w3))
  /\ (forall w2 w3 hashes0 hashes3,
        SwapData.timeout swapData * 1000 <= now env (world s) ->
        sendBatch base [txs !! 0%nat] (Asset.token (SwapData.sell swapData)) (world s)
          = (Ok hashes0, w2) ->
        sendBatch base [txs !! 3%nat] (Asset.token (SwapData.sell swapData)) w2
          = (Ok hashes3, w3) ->
        cancelSwap env base s
        = (Ok hashes3, mkSt (Party.set_state finalized (party s)) w3)).
Proof.
  intros Hstate Hdata Htxs. split.
  - intros address swapAccount balance w1 w2 w3 hashes0 hashes1
      Haddr Hacc Hbal Henough Hb0 Hb1.
    unfold finalizeSwap, bind, getP, gets, getObj, liftR, liftW, setP, modify, ret, throw.
    cbn. rewrite Haddr. cbn. rewrite Hacc. cbn. rewrite Hdata. cbn.
    rewrite Hstate, guard_passes. cbn. rewrite Hbal. cbn. apply Z.ltb_ge in Henough. rewrite Henough. cbn. rewrite Htxs. cbn.
    rewrite Hb0. cbn. rewrite Hb1. reflexivity.
  - intros w2 w3 hashes0 hashes3 Hlate Hb0 Hb3.
    unfold cancelSwap, bind, getP, gets, getObj, liftR, liftW, setP, modify, ret, throw.
    cbn. rewrite Hdata. apply Z.ltb_ge in Hlate. rewrite Hlate. cbn.
    rewrite Hstate, guard_passes. cbn. rewrite Htxs. cbn. rewrite Hb0. cbn. rewrite Hb3. reflexivity.
Qed.
End client_claims.

(** ** Signing: what a rejected signature leaves behind *)

Section signing_claims.
Context {W Sg : Type} (env : Env W) (musig : Musig Sg).
Implicit Types (s : St W Sg) (p : Party.t Sg).

Lemma signer_frame_refl s : signer_frame s s.
Proof. split; reflexivity. Qed.

Lemma signer_frame_trans s1 s2 s3 :
  signer_frame s1 s2 -> signer_frame s2 s3 -> signer_frame s1 s3.
Proof. intros [Hw1 Hp1] [Hw2 Hp2]. split; congruence. Qed.

Lemma signer_frame_fields s s' :
  signer_frame s s' ->
  world s' = world s
  /\ Party.state (party s') = Party.state (party s)
  /\ Party.swapData (party s') = Party.swapData (party s)
  /\ Party.transactions (party s') = Party.transactions (party s)
  /\ Party.privateKey (party s') = Party.privateKey (party s).
Proof.
  intros [Hw Hp]. split; [exact Hw|].
  split; [exact (f_equal Party.state Hp)|].
  split; [exact (f_equal Party.swapData Hp)|].
  split; [exact (f_equal Party.transactions Hp)|exact (f_equal Party.privateKey Hp)].
Qed.

Lemma withSigner_frame {A} (c : M Sg A) s r s' :
  withSigner c s = (r, s') -> signer_frame s s'.
Proof.
  unfold withSigner. destruct (Party.signer (party s)) as [sg|].
  - destruct (c sg) as [r' sg']. intros [= _ <-]. split; reflexivity.
  - intros [= _ <-]. apply signer_frame_refl.
Qed.

Lemma withSigner_inv {A} (c : M Sg A) s (a : A) s' :
  withSigner c s = (Ok a, s') ->
  exists sg sg', Party.signer (party s) = Some sg /\ c sg = (Ok a, sg').
Proof.
  unfold withSigner. destruct (Party.signer (party s)) as [sg|]; [|discriminate].
  destruct (c sg) as [r' sg'] eqn:Hc. intros [= -> _]. eauto.
Qed.

(** One round of combining and verifying touches the signer only, and
    a positive verdict is a verified signature. *)
Lemma combineAndVerify_frame dataShares tx i s r s' :
  combineAndVerify env musig dataShares tx i s = (r, s') ->
  signer_frame s s'
  /\ forall share signature,
       r = Ok (share, signature, true) -> verified env musig tx signature.
Proof.
  unfold combineAndVerify, bind, party_getSignBytes, liftR, getP, gets, ret.
  destruct (getSignBytes env (Some tx)) as [bytes|e] eqn:Hbytes.
  2:{ intros [= <- <-]. split; [apply signer_frame_refl|discriminate]. }
  destruct (withSigner (sign musig (Party.privateKey (party s)) bytes i) s)
    as [[share|e] s1] eqn:H1.
  2:{ intros [= <- <-]. split; [eapply withSigner_frame, H1|discriminate]. }
  destruct (withSigner (receiveSignatureShares musig [dataShares !! i; Some share] i) s1)
    as [[signature|e] s2] eqn:H2.
  2:{ intros [= <- <-]. split; [|discriminate].
      eapply signer_frame_trans; eapply withSigner_frame; eassumption. }
  destruct (withSigner (verify musig bytes signature) s2) as [[valid|e] s3] eqn:H3.
  2:{ intros [= <- <-]. split; [|discriminate].
      eapply signer_frame_trans; [eapply withSigner_frame, H1|].
      eapply signer_frame_trans; eapply withSigner_frame; eassumption. }
  intros [= <- <-]. split.
  - eapply signer_frame_trans; [eapply withSigner_frame, H1|].
    eapply signer_frame_trans; eapply withSigner_frame; eassumption.
  - intros share' signature' [= -> -> ->].
    destruct (withSigner_inv _ _ _ _ H3) as (sg & sg' & _ & Hv).
    exists bytes, sg, sg'. split; assumption.
Qed.

Lemma signEach_app dataShares pk (pre rest : list Tx.t) i shares s :
  signEach env musig dataShares pk (pre ++ rest)%list i shares s
  = match signEach env musig dataShares pk pre i shares s with
    | (Ok shares', s') =>
        signEach env musig dataShares pk rest (i + length pre)%nat shares' s'
    | (Throw e, s') => (Throw e, s')
    end.
Proof.
  revert i shares s. induction pre as [|tx pre IH]; intros i shares s.
  - cbn. rewrite Nat.add_0_r. reflexivity.
  - cbn [app signEach length]. unfold bind at 1 3.
    destruct (combineAndVerify env musig dataShares tx i s)
      as [[[[share signature] valid]|e] s1]; [|reflexivity].
    destruct valid; cbn [negb]; [|reflexivity].
    unfold bind, setP, modify. rewrite IH.
    replace (S i + length pre)%nat with (i + S (length pre))%nat by lia. reflexivity.
Qed.

(** A run of the loop that went through: the world, the state and the
    terms are as before, and the transactions it visited, and only
    they, now carry a signature, each one verified. *)
Lemma signEach_ok dataShares pk (pre : list Tx.t) i shares s shares' s' (l : list Tx.t) :
  signEach env musig dataShares pk pre i shares s = (Ok shares', s') ->
  Party.transactions (party s) = Some l ->
  world s' = world s
  /\ Party.state (party s') = Party.state (party s)
  /\ Party.swapData (party s') = Party.swapData (party s)
  /\ exists l',
       Party.transactions (party s') = Some l'
       /\ length l' = length l
       /\ (forall j, (j < i \/ i + length pre <= j)%nat -> l' !! j = l !! j)
       /\ (forall k t, pre !! k = Some t -> (i + k < length l)%nat ->
             exists signature,
               l' !! (i + k)%nat = Some (formatTx t signature pk)
               /\ verified env musig t signature).
Proof.
  revert i shares s l. induction pre as [|tx pre IH]; intros i shares s l Hrun Hl.
  - cbn in Hrun. injection Hrun as <- <-. repeat split.
    exists l. repeat split; [exact Hl|]. intros k t Hk. discriminate.
  - cbn [signEach] in Hrun. unfold bind at 1 in Hrun.
    destruct (combineAndVerify env musig dataShares tx i s)
      as [[[[share signature] valid]|e] s1] eqn:Hcv; [|discriminate].
    destruct (combineAndVerify_frame _ _ _ _ _ _ Hcv) as [Hframe Hver].
    destruct valid; cbn [negb] in Hrun; [|discriminate].
    unfold bind, setP, modify in Hrun.
    apply signer_frame_fields in Hframe as (Hw1 & Hst1 & Hsd1 & Htx1 & _).
    rewrite Hl in Htx1.
    apply (IH _ _ _ (<[i := formatTx tx signature pk]> l)) in Hrun.
    2:{ cbn. rewrite Htx1. reflexivity. }
    cbn in Hrun. destruct Hrun as (Hw & Hst & Hsd & l' & Hl' & Hlen & Hout & Hin).
    split; [congruence|]. split; [congruence|]. split; [congruence|].
    exists l'. split; [exact Hl'|]. rewrite length_insert in Hlen, Hin.
    split; [exact Hlen|]. split.
    + intros j Hj. rewrite Hout by (cbn in Hj; lia).
      apply list_lookup_insert_ne. cbn in Hj. lia.
    + intros k t Hk Hrange. destruct k as [|k].
      * cbn in Hk. injection Hk as <-. exists signature.
        rewrite Nat.add_0_r in *. rewrite Hout by lia.
        split; [apply list_lookup_insert_eq; exact Hrange|].
        apply (Hver share signature). reflexivity.
      * cbn in Hk. replace (i + S k)%nat with (S i + k)%nat by lia.
        apply Hin; [exact Hk|lia].
Qed.

(** C5 (amended). In state Prepared, once the commitment round has gone
    through and the transactions before index [i] have been signed and
    verified, if the combined signature for transaction [i] fails
    verification then [signSwap] throws its invalid-shares error; the
    state stays Prepared and the terms and the world are unchanged;
    transaction [i] and every later one are left exactly as they were
    (no signature is attached to them), and every earlier transaction
    has been formatted with a signature that was verified. *)
Theorem signSwap_rejects_invalid_share (dataCommitments dataShares : list Bytes)
    s (txs : list Tx.t) (matrix : list (list (option Bytes))) (sg sg1 sg2 : Sg)
    (pk : Bytes) (i : nat) (tx : Tx.t) (shares : list Bytes) si
    (share signature : Bytes) si' :
  Party.state (party s) = prepared ->
  Party.transactions (party s) = Some txs ->
  transposeCommitments dataCommitments (Party.commitments (party s)) = Ok matrix ->
  Party.signer (party s) = Some sg ->
  receiveCommitments musig matrix sg = (Ok tt, sg1) ->
  computePubkey musig sg1 = (Ok pk, sg2) ->
  signEach env musig dataShares pk (take i txs) 0 []
    (mkSt (Party.set_signer (Some sg2) (party s)) (world s)) = (Ok shares, si) ->
  txs !! i = Some tx ->
  combineAndVerify env musig dataShares tx i si = (Ok (share, signature, false), si') ->
  signSwap env musig dataCommitments dataShares s
    = (Throw (Error "Provided signature shares are invalid"), si')
  /\ Party.state (party si') = prepared
  /\ Party.swapData (party si') = Party.swapData (party s)
  /\ world si' = world s
  /\ exists txs',
       Party.transactions (party si') = Some txs'
       /\ length txs' = length txs
       /\ (forall j, (i <= j)%nat -> txs' !! j = txs !! j)
       /\ (forall j, (j < i)%nat ->
             exists t signature',
               txs !! j = Some t
               /\ txs' !! j = Some (formatTx t signature' pk)
               /\ verified env musig t signature').
Proof.
  intros Hstate Htxs Hmatrix Hsg Hrc Hpk Hpre Htx Hcv.
  assert (Hi : (i < length txs)%nat) by (eapply lookup_lt_Some, Htx).
  assert (Hlen : length (take i txs) = i) by (rewrite length_take; lia).
  destruct (signEach_ok _ _ _ _ _ _ _ _ txs Hpre) as (Hw & Hst & Hsd & l' & Hl' & Hll & Hout & Hin);
    [cbn; exact Htxs|].
  destruct (combineAndVerify_frame _ _ _ _ _ _ Hcv) as [Hframe _].
  apply signer_frame_fields in Hframe as (Hw' & Hst' & Hsd' & Htx' & _).
  cbn in Hw, Hst, Hsd.
  split; [|split; [congruence|split; [congruence|split; [congruence|]]]].
  - unfold signSwap, bind at 1, getP, gets. cbn.
    rewrite Hstate, guard_passes.
    unfold bind at 1. cbn. unfold bind at 1, liftR. rewrite Hmatrix.
    unfold bind at 1, withSigner at 1. rewrite Hsg, Hrc.
    unfold bind at 1, withSigner at 1. cbn. rewrite Hpk.
    unfold bind at 1, getObj. cbn. rewrite Htxs.
    change (Party.set_signer (Some sg2) (Party.set_signer (Some sg1) (party s)))
      with (Party.set_signer (Some sg2) (party s)).
    rewrite <- (take_drop_middle txs i tx Htx) at 1.
    rewrite signEach_app, Hpre, Hlen. cbn [signEach Nat.add].
    unfold bind at 1. rewrite Hcv. reflexivity.
  - exists l'. split; [congruence|]. split; [exact Hll|]. split.
    + intros j Hj. apply Hout. rewrite Hlen. lia.
    + intros j Hj.
      destruct (lookup_lt_is_Some_2 txs j) as [t Ht]; [lia|].
      destruct (Hin j t) as (signature' & Hf & Hv).
      * rewrite lookup_take_lt by exact Hj. exact Ht.
      * lia.
      * exists t, signature'. repeat split; assumption.
Qed.
End signing_claims.

(** ** The theorems on the test double *)

(** C7 at a party that has finished its swap: every guarded method
    refuses. *)
Lemma guards_reject_wrong_state_witness :
  prepareSwap Mock.env Mock.musig Mock.swapData "0x9b" "0x9707" Mock.providerPrecommitments
    Mock.finished
    = (Throw (Error "In the middle of a swap - can't start a new one"), Mock.finished)
  /\ signSwap Mock.env Mock.musig Mock.providerCommitments Mock.honestShares Mock.finished
     = (Throw (Error "Not prepared for the swap"), Mock.finished)
  /\ depositFunds Mock.base L2 true Mock.finished
     = (Throw (Error "Not yet signed the transactions - can't deposit funds"), Mock.finished)
  /\ wait Mock.env COMMIT Mock.finished
     = (Throw (Error "No funds on the swap account - nothing to wait for"), Mock.finished)
  /\ loadSwap Mock.env Mock.swapData Mock.plan Mock.finished
     = (Throw (Error "In the middle of a swap - can't switch to a new one"), Mock.finished).
Proof.
  destruct (guards_reject_wrong_state Mock.env Mock.base Mock.musig Mock.finished)
    as (H1 & H2 & H3 & H4 & H5).
  split; [apply H1; discriminate|].
  split; [apply H2; discriminate|].
  split; [apply H3; discriminate|].
  split; [apply H4; discriminate|apply H5; discriminate].
Defined.

(** C6 at a client that has deposited, ten minutes before the timeout. *)
Lemma cancelSwap_too_early_witness :
  cancelSwap Mock.env Mock.base Mock.waiting
  = (Throw (Error "Too early to cancel the swap"), Mock.waiting).
Proof.
  apply (cancelSwap_too_early Mock.env Mock.base Mock.waiting Mock.swapData).
  - reflexivity.
  - vm_compute. reflexivity.
Defined.

(** The same in state Empty with terms left over: the time check comes
    before the state check. *)
Example cancelSwap_too_early_any_state :
  cancelSwap Mock.env Mock.base
    (mkSt (Party.set_swapData (Some Mock.swapData) Mock.client) (world Mock.waiting))
  = (Throw (Error "Too early to cancel the swap"),
     mkSt (Party.set_swapData (Some Mock.swapData) Mock.client) (world Mock.waiting)).
Proof. vm_compute. reflexivity. Qed.

(** At an escrow account that holds exactly the sell amount. *)
Lemma loadSwap_infers_state_witness :
  exists s',
    loadSwap Mock.env Mock.swapData Mock.plan Mock.crashed = (Ok tt, s')
    /\ Party.swapData (party s') = Some Mock.swapData
    /\ Party.transactions (party s') = Some Mock.plan
    /\ Party.state (party s') = deposited.
Proof.
  destruct (loadSwap_infers_state Mock.env Mock.crashed Mock.swapData Mock.plan
              (txChangePubKey Mock.env Mock.swapData "0xc11e"
                 {| AccountState.address := Mock.escrow; AccountState.id := Some 42;
                    AccountState.committed_balances := ∅ |} 42 [Byte.x2a] 0 20)
              {| AccountState.address := Mock.escrow; AccountState.id := Some 42;
                 AccountState.committed_balances := {[ "ETH" := 1000000000000000000 ]} |}
              (Mock.world_at 1700000000000 (Some 1000000000000000000) None Null)
              1000000000000000000)
    as (s' & Hrun & Hdata & Htxs & _ & _ & Hdeposited);
    [reflexivity | reflexivity | vm_compute; reflexivity | vm_compute; reflexivity |].
  exists s'. split; [exact Hrun|]. split; [exact Hdata|]. split; [exact Htxs|].
  apply Hdeposited. cbn. lia.
Defined.

(** C8 at an escrow account that the ledger knows and that holds no
    token at all: the session is not restored. *)
Lemma loadSwap_misses_absent_balance_witness :
  exists s',
    loadSwap Mock.env Mock.swapData Mock.plan Mock.crashed_early
    = (Throw (Error "invalid BigNumber value"), s')
    /\ Party.state (party s') = empty
    /\ Party.state (party s') <> signed
    /\ Party.swapData (party s') = Some Mock.swapData
    /\ Party.transactions (party s') = Some Mock.plan
    /\ world s' = world Mock.crashed_early.
Proof.
  apply (loadSwap_misses_absent_balance Mock.env Mock.crashed_early Mock.swapData Mock.plan
           (txChangePubKey Mock.env Mock.swapData "0xc11e"
              {| AccountState.address := Mock.escrow; AccountState.id := Some 42;
                 AccountState.committed_balances := ∅ |} 42 [Byte.x2a] 0 20)
           {| AccountState.address := Mock.escrow; AccountState.id := Some 42;
              AccountState.committed_balances := ∅ |}
           (world Mock.crashed_early));
    vm_compute; reflexivity.
Defined.

(** With one unit less than the sell amount in the escrow account the
    state is Signed. *)
Example loadSwap_signed :
  Party.state (party (snd (loadSwap Mock.env Mock.swapData Mock.plan
    (mkSt Mock.client (Mock.world_at 1700000000000 (Some 999999999999999999) None Null)))))
  = signed.
Proof. vm_compute. reflexivity. Qed.



(** The run behind it. *)
Example wait_hollow :
  wait Mock.env COMMIT Mock.hollow = (Ok true, Mock.hollow)
  /\ Party.state (party Mock.hollow) = deposited.
Proof. split; vm_compute; reflexivity. Qed.

(** When the notification wins it. *)
Example wait_finalized :
  wait Mock.env COMMIT
    (mkSt (Mock.party_in deposited) (Mock.world_at 1700000000000 None None (Receipt true)))
  = (Ok true,
     mkSt (Mock.party_in finalized) (Mock.world_at 1700000000000 None None (Receipt true))).
Proof. vm_compute. reflexivity. Qed.

(** The hash handed to the notification carries the ledger's prefix in
    place of [0x]. *)
Example replace_prefix : replace "0x" "sync-tx:" "0xbeef" = "sync-tx:beef".
Proof. reflexivity. Qed.

(** C4 (amended) at the funded escrow account, after the timeout. *)
Lemma terminal_paths_submit_two_batches_witness :
  finalizeSwap Mock.env Mock.base Mock.funded
    = (Ok ["0xbatch"],
       mkSt (Mock.party_in finalized)
         (Mock.log [Mock.plan !! 1%nat] "ETH"
            (Mock.log [Mock.plan !! 0%nat] "ETH" (world Mock.funded))))
  /\ cancelSwap Mock.env Mock.base Mock.funded
     = (Ok ["0xbatch"],
        mkSt (Mock.party_in finalized)
          (Mock.log [Mock.plan !! 3%nat] "ETH"
             (Mock.log [Mock.plan !! 0%nat] "ETH" (world Mock.funded)))).
Proof.
  pose (w2 := Mock.log [Mock.plan !! 0%nat] "ETH" (world Mock.funded)).
  destruct (terminal_paths_submit_two_batches Mock.env Mock.base Mock.funded
              Mock.swapData Mock.plan eq_refl eq_refl eq_refl) as [Hfinalize Hcancel].
  split.
  - apply (Hfinalize Mock.escrow
             {| AccountState.address := Mock.escrow; AccountState.id := Some 42;
                AccountState.committed_balances :=
                  <["ETH" := 1000000000000000000]>
                    (<["DAI" := 2000000000000000000000]> ∅) |}
             2000000000000000000000 (world Mock.funded) w2
             (Mock.log [Mock.plan !! 1%nat] "ETH" w2) ["0xbatch"] ["0xbatch"]);
      vm_compute; try reflexivity. discriminate.
  - apply (Hcancel w2 (Mock.log [Mock.plan !! 3%nat] "ETH" w2) ["0xbatch"] ["0xbatch"]);
      vm_compute; try reflexivity. discriminate.
Defined.

(** C4 as stated fails: a successful [finalizeSwap] does not add one
    batch to the log of the submissions, it adds two, of one transaction
    each. *)
Lemma finalizeSwap_single_batch_counterexample :
  ~ (forall (s s' : St Mock.World unit) (hashes : list string),
       Party.state (party s) = deposited ->
       finalizeSwap Mock.env Mock.base s = (Ok hashes, s') ->
       exists batch,
         Mock.batches (world s') = (Mock.batches (world s) ++ [batch])%list).
Proof.
  intros H.
  destruct (H Mock.funded (snd (finalizeSwap Mock.env Mock.base Mock.funded)) ["0xbatch"])
    as [batch Hbatch].
  - reflexivity.
  - vm_compute. reflexivity.
  - apply (f_equal length) in Hbatch. vm_compute in Hbatch. discriminate.
Qed.

(** What the log holds after it. *)
Example finalizeSwap_batches :
  Mock.batches (world (snd (finalizeSwap Mock.env Mock.base Mock.funded)))
  = [([Mock.plan !! 0%nat], "ETH"); ([Mock.plan !! 1%nat], "ETH")].
Proof. vm_compute. reflexivity. Qed.

(** C5 (amended) at the provider's corrupted share for transaction 1. *)
Lemma signSwap_rejects_invalid_share_witness :
  signSwap Mock.env Mock.musig Mock.providerCommitments Mock.corruptedShares Mock.prepared
    = (Throw (Error "Provided signature shares are invalid"), Mock.rejected)
  /\ Party.state (party Mock.rejected) = prepared
  /\ Party.swapData (party Mock.rejected) = Party.swapData (party Mock.prepared)
  /\ world Mock.rejected = world Mock.prepared
  /\ exists txs',
       Party.transactions (party Mock.rejected) = Some txs'
       /\ length txs' = length Mock.plan
       /\ (forall j, (1 <= j)%nat -> txs' !! j = Mock.plan !! j)
       /\ (forall j, (j < 1)%nat ->
             exists t signature',
               Mock.plan !! j = Some t
               /\ txs' !! j = Some (formatTx t signature' [Byte.x2a])
               /\ verified Mock.env Mock.musig t signature').
Proof.
  apply (signSwap_rejects_invalid_share Mock.env Mock.musig Mock.providerCommitments
           Mock.corruptedShares Mock.prepared Mock.plan Mock.matrix tt tt tt [Byte.x2a]
           1%nat
           (txTransfer {| AccountState.address := Mock.escrow; AccountState.id := Some 42;
                          AccountState.committed_balances := ∅ |} 42 1 "0xc11e"
              1000000000000000000000 10 1 0 1700000600)
           [[Byte.x03; Byte.x00]] Mock.after_first
           [Byte.x01; Byte.x01] [Byte.xff; Byte.x01; Byte.x01] Mock.rejected);
    vm_compute; reflexivity.
Defined.

(** C5 as stated fails: when the share for transaction 1 is corrupted,
    [signSwap] throws, and transaction 0 of the plan has been mutated: it
    now carries its signature. *)
Lemma signSwap_partial_mutation_counterexample :
  ~ (forall (dataCommitments dataShares : list Bytes) (s s' : St Mock.World unit),
       Party.state (party s) = prepared ->
       signSwap Mock.env Mock.musig dataCommitments dataShares s
         = (Throw (Error "Provided signature shares are invalid"), s') ->
       Party.transactions (party s') = Party.transactions (party s)).
Proof.
  intros H.
  specialize (H Mock.providerCommitments Mock.corruptedShares Mock.prepared Mock.rejected).
  assert (Hplan : Tx.signature <$> default [] (Party.transactions (party Mock.rejected))
                  = Tx.signature <$> default [] (Party.transactions (party Mock.prepared))).
  { rewrite H; [reflexivity|reflexivity|vm_compute; reflexivity]. }
  vm_compute in Hplan. discriminate.
Qed.

(** With the honest shares the client reaches Signed. *)
Example signSwap_honest :
  fst (signSwap Mock.env Mock.musig Mock.providerCommitments Mock.honestShares Mock.prepared)
    = Ok Mock.honestShares
  /\ Party.state (party (snd (signSwap Mock.env Mock.musig Mock.providerCommitments
                                 Mock.honestShares Mock.prepared))) = signed.
Proof. split; vm_compute; reflexivity. Qed.

(** ** The key registration that [prepareSwap] stores *)

Lemma bind_Ok {S A B} (c : M S A) (k : A -> M S B) (s s' : S) (b : B) :
  bind c k s = (Ok b, s') -> exists a s1, c s = (Ok a, s1) /\ k a s1 = (Ok b, s').
Proof.
  unfold bind. destruct (c s) as [[a|e] s1]; [|discriminate]. eauto.
Qed.

Section prepare_claims.
Context {W Sg : Type} (env : Env W) (musig : Musig Sg).
Implicit Types (s : St W Sg).

Lemma liftW_Ok {A} (c : M W A) s (a : A) s' :
  liftW c s = (Ok a, s') -> exists w, c (world s) = (Ok a, w) /\ s' = mkSt (party s) w.
Proof.
  unfold liftW. destruct (c (world s)) as [r w]. intros [= -> <-]. eauto.
Qed.

Lemma withSigner_Ok {A} (c : M Sg A) s (a : A) s' :
  withSigner c s = (Ok a, s') ->
  exists sg sg', Party.signer (party s) = Some sg /\ c sg = (Ok a, sg')
                 /\ s' = mkSt (Party.set_signer (Some sg') (party s)) (world s).
Proof.
  unfold withSigner. destruct (Party.signer (party s)) as [sg|]; [|discriminate].
  destruct (c sg) as [r sg'] eqn:Hc. intros [= -> <-]. eauto.
Qed.

Lemma liftR_Ok {A} (r : result A) s (a : A) s' :
  liftR r s = (Ok a, s') -> r = Ok a /\ s' = s.
Proof. unfold liftR. intros [= -> <-]. split; reflexivity. Qed.

Lemma getP_Ok {A} (f : Party.t Sg -> A) s (a : A) s' :
  getP f s = (Ok a, s') -> a = f (party s) /\ s' = s.
Proof. unfold getP, gets. intros [= <- <-]. split; reflexivity. Qed.

Lemma setP_Ok (f : Party.t Sg -> Party.t Sg) s (a : unit) s' :
  setP f s = (Ok a, s') -> s' = mkSt (f (party s)) (world s).
Proof. unfold setP, modify. intros [= _ <-]. reflexivity. Qed.

(** One statement of a method that went through: its effect on the
    state, and the rest of the method. *)
Ltac step H :=
  let Hc := fresh "Hc" in
  apply bind_Ok in H as (? & ? & Hc & H);
  first
    [ apply setP_Ok in Hc as ->
    | apply getP_Ok in Hc as (-> & ->)
    | apply withSigner_Ok in Hc as (? & ? & ? & Hc & ->)
    | apply liftW_Ok in Hc as (? & Hc & ->)
    | apply liftR_Ok in Hc as (Hc & ->) ];
  cbv beta in H; cbn [party world] in *.

(** Whenever [prepareSwap] goes through, the party is Prepared, its
    escrow account was derived from (creator, salt, code hash) of the
    terms, and the key registration of the plan it stores carries the
    salt and the code hash of the terms with the client's own wallet
    address as creator. *)
Lemma prepareSwap_registration (data : SwapData.t) (providerPubkey : string)
    (providerAddress : Address) (providerPrecommitments : list Bytes)
    (s s' : St W Sg) (r : list Bytes * list Bytes) :
  prepareSwap env musig data providerPubkey providerAddress providerPrecommitments s
    = (Ok r, s') ->
  Party.state (party s') = prepared
  /\ exists pkh info plan,
       getCREATE2AddressAndSalt env (hexlify env pkh) (create2Params data) = Ok info
       /\ Party.create2Info (party s') = Some info
       /\ Party.transactions (party s') = Some plan
       /\ auth_triple <$> registration_auth plan
          = Some (Party.address (party s), Create2.salt (SwapData.create2 data),
                  Create2.hash (SwapData.create2 data)).
Proof.
  intros H. unfold prepareSwap in H.
  step H. destruct (bool_decide _); [discriminate|].
  do 13 step H.
  apply bind_Ok in H as ([] & s1 & Hcreate & H).
  match type of Hcreate with
  | _ ?s0 = _ => assert (Hs1 : exists w, s1 = mkSt (party s0) w)
  end.
  { match type of Hcreate with
    | context [id_not_set ?i] => destruct (id_not_set i)
    end.
    - step Hcreate. apply liftW_Ok in Hcreate as (? & _ & ->). eauto.
    - injection Hcreate as <-. eexists. symmetry. apply state_eta. }
  destruct Hs1 as [w ->].
  do 4 step H. injection H as <- <-. cbn.
  split; [reflexivity|]. eexists _, _, _.
  split; [eassumption|]. split; [reflexivity|]. split; [reflexivity|].
  eapply getTransactions_registration; eassumption.
Qed.
End prepare_claims.

(** C3 (the code differs). On the terms of the test suite, whose CREATE2
    creator is the deployer contract, [prepareSwap] succeeds; the escrow
    address was derived from (creator, salt, code hash) of the terms,
    but the key registration of the plan it stores names the client's
    wallet address as creator, so the two triples differ. *)
Theorem prepareSwap_registration_creator :
  fst (prepareSwap Mock.env Mock.musig Mock.swapData "0x9b" "0x9707"
         Mock.providerPrecommitments
         (mkSt Mock.client (Mock.world_at 1700000000000 None None Null)))
  = Ok ([[Byte.x10]; [Byte.x11]; [Byte.x12]; [Byte.x13]; [Byte.x14]],
        [[Byte.x20]; [Byte.x21]; [Byte.x22]; [Byte.x23]; [Byte.x24]])
  /\ Party.create2Info (party Mock.prepared)
     = Some {| Create2Info.salt := "0x5a17"; Create2Info.address := "0xe5c0xdep" |}
  /\ derivation_triple (create2Params Mock.swapData) = ("0xdep", "0x5a17", "0xc0de")
  /\ (Party.transactions (party Mock.prepared) ≫= registration_auth)
     ≫= (fun a => Some (auth_triple a))
     = Some ("0xc11e", "0x5a17", "0xc0de").
Proof. repeat split; vm_compute; reflexivity. Qed.

(** In a world that does not know the escrow account yet, [prepareSwap]
    provokes its creation with a zero transfer and ends Prepared with a
    plan of five transactions. *)
Example prepareSwap_creates_account :
  Party.state (party (snd (prepareSwap Mock.env Mock.musig Mock.swapData "0x9b" "0x9707"
                             Mock.providerPrecommitments (mkSt Mock.client Mock.fresh_world))))
  = prepared
  /\ length <$> Party.transactions
        (party (snd (prepareSwap Mock.env Mock.musig Mock.swapData "0x9b" "0x9707"
                       Mock.providerPrecommitments (mkSt Mock.client Mock.fresh_world))))
     = Some 5%nat
  /\ Mock.ids (world (snd (prepareSwap Mock.env Mock.musig Mock.swapData "0x9b" "0x9707"
                             Mock.providerPrecommitments (mkSt Mock.client Mock.fresh_world))))
     !! Mock.escrow = Some 7.
Proof. repeat split; vm_compute; reflexivity. Qed.

(** * Further properties of the code *)

(** ** [transpose] on any array of rows *)

(** X1. [transpose] throws on the empty array; on any other array of
    rows, ragged or not, it returns one row per entry of the first row,
    each as long as the array, and entry [i][j] of the result is what
    [matrix[j][i]] reads ([undefined] where row [j] is too short); the
    entries of a row beyond the length of the first row are dropped. *)
Theorem transpose_shape {T : Type} (row0 : list T) (rest : list (list T)) :
  transpose ([] : list (list T)) = Throw TypeError
  /\ exists t,
       transpose (row0 :: rest) = Ok t
       /\ length t = length row0
       /\ Forall (fun r => length r = S (length rest)) t
       /\ forall i j, (i < length row0)%nat -> (j < S (length rest))%nat ->
            entry t i j = Some (entry (row0 :: rest) j i).
Proof.
  split; [reflexivity|]. eexists. split; [apply transpose_cons|].
  split; [apply length_imap|]. split.
  - apply Forall_forall. intros r Hr. apply list_elem_of_lookup in Hr as [i Hi].
    rewrite list_lookup_imap in Hi. destruct (row0 !! i); [|discriminate].
    cbn in Hi. injection Hi as <-. cbn. rewrite length_fmap. reflexivity.
  - intros i j Hi Hj. unfold entry at 1. rewrite list_lookup_imap.
    destruct (lookup_lt_is_Some_2 row0 i Hi) as [x Hx]. rewrite Hx. cbn [fmap option_fmap option_map mbind option_bind].
    rewrite list_lookup_fmap. unfold entry.
    destruct (lookup_lt_is_Some_2 (row0 :: rest) j Hj) as [row Hrow]. rewrite Hrow.
    reflexivity.
Qed.

(** A ragged array: the second row is shorter, the third longer. *)
Example transpose_ragged :
  transpose [[1; 2]; [3]; [4; 5; 6]]
  = Ok [[Some 1; Some 3; Some 4]; [Some 2; None; Some 5]].
Proof. reflexivity. Qed.

(** ** More on the plan *)

Section plan_extras.
Context {W : Type} (env : Env W).

(** A returned plan is the five literals, filled with the answers of the
    ledger. *)
Lemma getTransactions_shape (swapData : SwapData.t)
    (clientAddress providerAddress swapAddress : Address) (pkh : Bytes)
    (w w' : W) (plan : list Tx.t) :
  getTransactions env swapData clientAddress providerAddress swapAddress pkh w
    = (Ok plan, w') ->
  exists transferSold transferBought changePubKey withdraw swapAccount id
         buyTokenId sellTokenId,
    AccountState.id swapAccount = Some id /\ id <> 0
    /\ resolveTokenId env (Asset.token (SwapData.buy swapData)) = Ok buyTokenId
    /\ resolveTokenId env (Asset.token (SwapData.sell swapData)) = Ok sellTokenId
    /\ plan = [
        txChangePubKey env swapData clientAddress swapAccount id pkh sellTokenId changePubKey;
        txTransfer swapAccount id buyTokenId clientAddress
          (Asset.amount (SwapData.buy swapData)) transferBought 1 0
          (SwapData.timeout swapData);
        match SwapData.withdrawType swapData with
        | Some L1 =>
            txWithdraw swapAccount id sellTokenId providerAddress
              (Asset.amount (SwapData.sell swapData)) withdraw 2 0 (MAX_TIMESTAMP env)
        | _ =>
            txTransfer swapAccount id sellTokenId providerAddress
              (Asset.amount (SwapData.sell swapData)) transferSold 2 0 (MAX_TIMESTAMP env)
        end;
        txTransfer swapAccount id sellTokenId clientAddress
          (Asset.amount (SwapData.sell swapData)) transferSold 1
          (SwapData.timeout swapData + 1) (MAX_TIMESTAMP env);
        txTransfer swapAccount id buyTokenId providerAddress 0 transferBought 2
          (SwapData.timeout swapData + 1) (MAX_TIMESTAMP env) ].
Proof.
  intros H. destruct (getTransactions_inv env _ _ _ _ _ _ _ _ H)
    as (w1 & w2 & w3 & w4 & f1 & f2 & f3 & f4 & acc & b & s
        & H1 & H2 & H3 & H4 & H5 & Hid & Hb & Hs).
  rewrite (getTransactions_returns env _ _ _ _ _ _ _ _ _ _ _ _ _ _ _ _ _ _
             H1 H2 H3 H4 H5 Hid Hb Hs) in H.
  injection H as <-.
  destruct (AccountState.id acc) as [id|] eqn:Hacc; [|discriminate].
  cbn in Hid. apply Z.eqb_neq in Hid.
  exists f1, f2, f3, f4, acc, id, b, s. rewrite Hacc. cbn. repeat split; assumption.
Qed.

(** X4. When the ledger reports the escrow account without an identifier,
    or with the identifier 0 (falsy as well), [getTransactions] throws
    its account-not-set error: after the four fee queries and the
    account query have been made, and with no plan returned. *)
Theorem getTransactions_account_not_set (swapData : SwapData.t)
    (clientAddress providerAddress swapAddress : Address) (pkh : Bytes)
    (w w1 w2 w3 w4 w5 : W) (transferSold transferBought changePubKey withdraw : Z)
    (swapAccount : AccountState.t) :
  getTransactionFee env FeeTransfer providerAddress
    (Asset.token (SwapData.sell swapData)) w = (Ok transferSold, w1) ->
  getTransactionFee env FeeTransfer providerAddress
    (Asset.token (SwapData.buy swapData)) w1 = (Ok transferBought, w2) ->
  getTransactionFee env (FeeChangePubKey false) providerAddress
    (Asset.token (SwapData.sell swapData)) w2 = (Ok changePubKey, w3) ->
  getTransactionFee env FeeWithdraw providerAddress
    (Asset.token (SwapData.sell swapData)) w3 = (Ok withdraw, w4) ->
  getState env (Some swapAddress) w4 = (Ok swapAccount, w5) ->
  AccountState.id swapAccount = None \/ AccountState.id swapAccount = Some 0 ->
  getTransactions env swapData clientAddress providerAddress swapAddress pkh w
  = (Throw (Error "Swap Account ID not set - can't sign transactions"), w5).
Proof.
  intros H1 H2 H3 H4 H5 Hid.
  unfold getTransactions, bind. rewrite H1, H2, H3, H4, H5.
  destruct Hid as [-> | ->]; reflexivity.
Qed.

(** X5. Whatever plan [getTransactions] returns has exactly 5
    transactions; they all carry the same non-zero account identifier,
    none carries a signature, the four payments all leave the escrow
    account the ledger reported, and each payment pays its fee in the
    token it moves. *)
Theorem getTransactions_plan_invariants (swapData : SwapData.t)
    (clientAddress providerAddress swapAddress : Address) (pkh : Bytes)
    (w w' : W) (plan : list Tx.t) :
  getTransactions env swapData clientAddress providerAddress swapAddress pkh w
    = (Ok plan, w') ->
  length plan = 5%nat
  /\ (exists id, id <> 0 /\ Forall (fun tx => Tx.accountId tx = id) plan)
  /\ Forall (fun tx => Tx.signature tx = None) plan
  /\ (exists escrow, Tx.account <$> plan !! 0%nat = Some (Some escrow)
        /\ Forall (fun tx => Tx.from tx = Some escrow) (drop 1 plan))
  /\ Forall (fun tx => Tx.tokenId tx = Some (Tx.feeTokenId tx)) (drop 1 plan).
Proof.
  intros H. apply getTransactions_shape in H
    as (f1 & f2 & f3 & f4 & acc & id & b & s & _ & Hid & _ & _ & ->).
  split; [reflexivity|]. split; [|split; [|split]].
  - exists id. split; [exact Hid|].
    destruct (SwapData.withdrawType swapData) as [[]|]; repeat constructor.
  - destruct (SwapData.withdrawType swapData) as [[]|]; repeat constructor.
  - exists (AccountState.address acc). split; [reflexivity|].
    destruct (SwapData.withdrawType swapData) as [[]|]; repeat constructor.
  - destruct (SwapData.withdrawType swapData) as [[]|]; repeat constructor.
Qed.

(** X6. Every transaction of a returned plan has a type that
    [getSignBytes] knows: it hands transaction 0 to the signer's
    [changePubKeySignBytes], transaction 2 to [withdrawSignBytes] when
    the payout is on L1, and every other one to [transferSignBytes];
    the invalid-type branch is never taken on a plan. *)
Theorem getSignBytes_on_plan (swapData : SwapData.t)
    (clientAddress providerAddress swapAddress : Address) (pkh : Bytes)
    (w w' : W) (plan : list Tx.t) :
  getTransactions env swapData clientAddress providerAddress swapAddress pkh w
    = (Ok plan, w') ->
  exists t0 t1 t2 t3 t4,
    plan = [t0; t1; t2; t3; t4]
    /\ getSignBytes env (Some t0) = changePubKeySignBytes env t0 "contracts-4"
    /\ getSignBytes env (Some t1) = transferSignBytes env t1 "contracts-4"
    /\ getSignBytes env (Some t2)
       = match SwapData.withdrawType swapData with
         | Some L1 => withdrawSignBytes env t2 "contracts-4"
         | _ => transferSignBytes env t2 "contracts-4"
         end
    /\ getSignBytes env (Some t3) = transferSignBytes env t3 "contracts-4"
    /\ getSignBytes env (Some t4) = transferSignBytes env t4 "contracts-4".
Proof.
  intros H. apply getTransactions_shape in H
    as (f1 & f2 & f3 & f4 & acc & id & b & s & _ & _ & _ & _ & ->).
  do 5 eexists. split; [reflexivity|].
  destruct (SwapData.withdrawType swapData) as [[]|]; repeat split; reflexivity.
Qed.

(** The validity windows of a returned plan, by position. *)
Lemma getTransactions_windows (swapData : SwapData.t)
    (clientAddress providerAddress swapAddress : Address) (pkh : Bytes)
    (w w' : W) (plan : list Tx.t) :
  getTransactions env swapData clientAddress providerAddress swapAddress pkh w
    = (Ok plan, w') ->
  Tx.validFrom <$> plan
    = [0; 0; 0; SwapData.timeout swapData + 1; SwapData.timeout swapData + 1]
  /\ Tx.validUntil <$> plan
     = [MAX_TIMESTAMP env; SwapData.timeout swapData; MAX_TIMESTAMP env;
        MAX_TIMESTAMP env; MAX_TIMESTAMP env].
Proof.
  intros H. apply getTransactions_shape in H
    as (f1 & f2 & f3 & f4 & acc & id & b & s & _ & _ & _ & _ & ->).
  destruct (SwapData.withdrawType swapData) as [[]|]; split; reflexivity.
Qed.
End plan_extras.

(** ** More on the nonce-tracking ledger *)

(** X2. For a plan that [getTransactions] returned, on the nonce-tracking
    ledger: the pay-buyer transaction 1 and the refund 3 are never both
    accepted, and the pay-seller transaction 2 and the nonce-burn 4 are
    never both accepted, whatever the order and times of submission. *)
Theorem same_nonce_pairs_exclusive {W : Type} (env : Env W) (swapData : SwapData.t)
    (clientAddress providerAddress swapAddress : Address) (pkh : Bytes) (w w' : W)
    (plan : list Tx.t) (policy : Ledger.t -> Tx.t -> Z -> bool) (l : Ledger.t) :
  getTransactions env swapData clientAddress providerAddress swapAddress pkh w
    = (Ok plan, w') ->
  Ledger.reachable policy plan l ->
  ~ (1%nat ∈ Ledger.accepted l /\ 3%nat ∈ Ledger.accepted l)
  /\ ~ (2%nat ∈ Ledger.accepted l /\ 4%nat ∈ Ledger.accepted l).
Proof.
  intros Hplan Hreach. apply getTransactions_nonces in Hplan. split.
  - apply (same_nonce_exclusive policy plan l 1 3 1 Hreach); [| |lia];
      rewrite Hplan; reflexivity.
  - apply (same_nonce_exclusive policy plan l 2 4 2 Hreach); [| |lia];
      rewrite Hplan; reflexivity.
Qed.

Lemma submit_refused (policy : Ledger.t -> Tx.t -> Z -> bool) (plan : list Tx.t)
    (l : Ledger.t) (i : nat) (time from until : Z) :
  (Tx.validFrom <$> plan) !! i = Some from ->
  (Tx.validUntil <$> plan) !! i = Some until ->
  time < from \/ until < time ->
  Ledger.submit policy plan l i time = l.
Proof.
  intros Hfrom Huntil Hout. unfold Ledger.submit.
  rewrite list_lookup_fmap in Hfrom, Huntil.
  destruct (plan !! i) as [tx|]; [|reflexivity].
  cbn in Hfrom, Huntil. injection Hfrom as Hfrom. injection Huntil as Huntil.
  unfold Ledger.admits.
  destruct Hout as [Hout|Hout].
  - assert ((Tx.validFrom tx <=? time) = false) as -> by (apply Z.leb_gt; lia).
    rewrite andb_false_r. reflexivity.
  - assert ((time <=? Tx.validUntil tx) = false) as -> by (apply Z.leb_gt; lia).
    rewrite andb_false_r. reflexivity.
Qed.

(** X3. For a plan that [getTransactions] returned, the ledger refuses
    the refund 3 and the nonce-burn 4 at every time up to the timeout,
    and refuses the pay-buyer transaction 1 at every time after it: a
    refused submission leaves the ledger as it was. *)
Theorem submissions_refused_by_window {W : Type} (env : Env W) (swapData : SwapData.t)
    (clientAddress providerAddress swapAddress : Address) (pkh : Bytes) (w w' : W)
    (plan : list Tx.t) (policy : Ledger.t -> Tx.t -> Z -> bool) (l : Ledger.t) (time : Z) :
  getTransactions env swapData clientAddress providerAddress swapAddress pkh w
    = (Ok plan, w') ->
  (time <= SwapData.timeout swapData ->
     Ledger.submit policy plan l 3 time = l /\ Ledger.submit policy plan l 4 time = l)
  /\ (SwapData.timeout swapData < time -> Ledger.submit policy plan l 1 time = l).
Proof.
  intros Hplan. apply getTransactions_windows in Hplan as [Hfrom Huntil]. split.
  - intros Hearly. split.
    + apply (submit_refused policy plan l 3 time (SwapData.timeout swapData + 1)
               (MAX_TIMESTAMP env)); [rewrite Hfrom|rewrite Huntil|lia]; reflexivity.
    + apply (submit_refused policy plan l 4 time (SwapData.timeout swapData + 1)
               (MAX_TIMESTAMP env)); [rewrite Hfrom|rewrite Huntil|lia]; reflexivity.
  - intros Hlate.
    apply (submit_refused policy plan l 1 time 0 (SwapData.timeout swapData));
      [rewrite Hfrom|rewrite Huntil|lia]; reflexivity.
Qed.

(** ** More on the party state machine *)

Lemma bind_Throw {S A B} (c : M S A) (k : A -> M S B) (s s' : S) (e : Exn) :
  bind c k s = (Throw e, s') ->
  c s = (Throw e, s') \/ exists a s1, c s = (Ok a, s1) /\ k a s1 = (Throw e, s').
Proof.
  unfold bind. destruct (c s) as [[a|e'] s1].
  - right. eauto.
  - intros [= -> ->]. left. reflexivity.
Qed.

Section machine_extras.
Context {W Sg : Type} (env : Env W) (base : Base W Sg) (musig : Musig Sg).
Implicit Types (s : St W Sg) (p : Party.t Sg) (w : W).

Lemma liftW_Throw {A} (c : M W A) s (e : Exn) s' :
  liftW c s = (Throw e, s') ->
  exists w, c (world s) = (Throw e, w) /\ s' = mkSt (party s) w.
Proof.
  unfold liftW. destruct (c (world s)) as [r w]. intros [= -> <-]. eauto.
Qed.

Lemma liftR_Throw {A} (r : result A) s (e : Exn) s' :
  liftR r s = (Throw e, s') -> r = Throw e /\ s' = s.
Proof. unfold liftR. intros [= -> <-]. split; reflexivity. Qed.

Lemma getObj_Ok {A} (f : Party.t Sg -> option A) s (a : A) s' :
  getObj f s = (Ok a, s') -> f (party s) = Some a /\ s' = s.
Proof.
  unfold getObj. destruct (f (party s)); [|discriminate].
  intros [= <- <-]. split; reflexivity.
Qed.

Lemma getObj_Throw {A} (f : Party.t Sg -> option A) s (e : Exn) s' :
  getObj f s = (Throw e, s') -> s' = s.
Proof.
  unfold getObj. destruct (f (party s)); [discriminate|].
  intros [= _ <-]. reflexivity.
Qed.

(** One statement of a method: it went through and the method goes on,
    or it threw and the method ends in the state it left. *)
Ltac ok_step H :=
  let Hc := fresh "Hc" in
  apply bind_Ok in H as (? & ? & Hc & H);
  first
    [ apply setP_Ok in Hc as ->
    | apply getP_Ok in Hc as (-> & ->)
    | apply getObj_Ok in Hc as (Hc & ->)
    | apply withSigner_Ok in Hc as (? & ? & ? & Hc & ->)
    | apply liftW_Ok in Hc as (? & Hc & ->)
    | apply liftR_Ok in Hc as (Hc & ->) ];
  cbv beta in H; cbn [party world] in *.

Ltac throw_step H close :=
  let Hc := fresh "Hc" in
  apply bind_Throw in H as [Hc | (? & ? & Hc & H)];
  [ first
      [ discriminate Hc
      | apply getObj_Throw in Hc as ->
      | apply withSigner_frame in Hc
      | apply liftW_Throw in Hc as (? & Hc & ->)
      | apply liftR_Throw in Hc as (Hc & ->) ];
    cbn [party world] in *; close
  | first
      [ apply setP_Ok in Hc as ->
      | apply getP_Ok in Hc as (-> & ->)
      | apply getObj_Ok in Hc as (Hc & ->)
      | apply withSigner_Ok in Hc as (? & ? & ? & Hc & ->)
      | apply liftW_Ok in Hc as (? & Hc & ->)
      | apply liftR_Ok in Hc as (Hc & ->) ];
    cbv beta in H; cbn [party world] in * ].

(** *** [signSwap] *)

(** Whatever the loop does, it leaves the world, the state and the terms
    alone and keeps the number of transactions. *)
Lemma signEach_any dataShares pk (txs : list Tx.t) i shares s r s' (l : list Tx.t) :
  signEach env musig dataShares pk txs i shares s = (r, s') ->
  Party.transactions (party s) = Some l ->
  world s' = world s
  /\ Party.state (party s') = Party.state (party s)
  /\ Party.swapData (party s') = Party.swapData (party s)
  /\ exists l', Party.transactions (party s') = Some l' /\ length l' = length l.
Proof.
  revert i shares s l. induction txs as [|tx txs IH]; intros i shares s l Hrun Hl.
  - cbn in Hrun. injection Hrun as <- <-. repeat split. eauto.
  - cbn [signEach] in Hrun. unfold bind at 1 in Hrun.
    destruct (combineAndVerify env musig dataShares tx i s)
      as [[[[share signature] valid]|e] s1] eqn:Hcv.
    + destruct (combineAndVerify_frame _ _ _ _ _ _ _ _ Hcv) as [Hframe _].
      apply signer_frame_fields in Hframe as (Hw1 & Hst1 & Hsd1 & Htx1 & _).
      rewrite Hl in Htx1.
      destruct valid; cbn [negb] in Hrun.
      * unfold bind, setP, modify in Hrun.
        apply (IH _ _ _ (<[i := formatTx tx signature pk]> l)) in Hrun.
        2:{ cbn. rewrite Htx1. reflexivity. }
        cbn in Hrun. destruct Hrun as (Hw & Hst & Hsd & l' & Hl' & Hlen).
        rewrite length_insert in Hlen.
        split; [congruence|]. split; [congruence|]. split; [congruence|]. eauto.
      * injection Hrun as <- <-.
        split; [exact Hw1|]. split; [exact Hst1|]. split; [exact Hsd1|]. eauto.
    + destruct (combineAndVerify_frame _ _ _ _ _ _ _ _ Hcv) as [Hframe _].
      apply signer_frame_fields in Hframe as (Hw1 & Hst1 & Hsd1 & Htx1 & _).
      rewrite Hl in Htx1. injection Hrun as <- <-.
      split; [exact Hw1|]. split; [exact Hst1|]. split; [exact Hsd1|]. eauto.
Qed.

Lemma signEach_shares dataShares pk (txs : list Tx.t) i shares s shares' s' :
  signEach env musig dataShares pk txs i shares s = (Ok shares', s') ->
  length shares' = (length shares + length txs)%nat.
Proof.
  revert i shares s. induction txs as [|tx txs IH]; intros i shares s Hrun.
  - cbn in Hrun. injection Hrun as <- _. cbn. lia.
  - cbn [signEach] in Hrun. unfold bind at 1 in Hrun.
    destruct (combineAndVerify env musig dataShares tx i s)
      as [[[[share signature] valid]|e] s1]; [|discriminate].
    destruct valid; cbn [negb] in Hrun; [|discriminate].
    unfold bind, setP, modify in Hrun. apply IH in Hrun.
    rewrite length_app in Hrun. cbn in *. lia.
Qed.

(** X7. Whenever [signSwap] returns, the party is Signed and every
    transaction of the plan has been formatted with a signature that the
    signer verified against that transaction's signable bytes; one share
    per transaction is returned, and the world and the terms are
    untouched. The state Signed is never reached with an unverified
    transaction. *)
Theorem signSwap_signed_means_verified (dataCommitments dataShares : list Bytes)
    s (txs : list Tx.t) (shares : list Bytes) s' :
  Party.transactions (party s) = Some txs ->
  signSwap env musig dataCommitments dataShares s = (Ok shares, s') ->
  Party.state (party s') = signed
  /\ world s' = world s
  /\ Party.swapData (party s') = Party.swapData (party s)
  /\ length shares = length txs
  /\ exists pk txs',
       Party.transactions (party s') = Some txs'
       /\ length txs' = length txs
       /\ forall j t, txs !! j = Some t ->
            exists signature,
              txs' !! j = Some (formatTx t signature pk)
              /\ verified env musig t signature.
Proof.
  intros Htxs H. unfold signSwap in H.
  ok_step H. destruct (bool_decide _); [discriminate|].
  do 5 ok_step H.
  apply bind_Ok in H as (sh & s1 & Hloop & H).
  ok_step H. injection H as <- <-. cbn.
  match goal with
  | Hx : Party.transactions (Party.set_signer _ _) = Some _ |- _ =>
      cbn in Hx; rewrite Htxs in Hx; injection Hx as <-
  end.
  pose proof (signEach_shares _ _ _ _ _ _ _ _ Hloop) as Hshares.
  apply (signEach_ok env musig _ _ _ _ _ _ _ _ txs) in Hloop; [|exact Htxs].
  cbn in Hloop. destruct Hloop as (Hw & Hst & Hsd & l' & Hl' & Hlen & _ & Hin).
  split; [reflexivity|]. split; [exact Hw|]. split; [exact Hsd|].
  split; [exact Hshares|]. eexists _, l'. split; [exact Hl'|]. split; [exact Hlen|].
  intros j t Ht. apply (Hin j t Ht). eapply lookup_lt_Some, Ht.
Qed.

(** X8. Whatever makes [signSwap] throw in state Prepared (a signer
    error, a transaction of an unknown type, an invalid share), the
    state stays Prepared, the world and the terms are untouched and the
    plan keeps its length. *)
Theorem signSwap_failure_keeps_state (dataCommitments dataShares : list Bytes)
    s (txs : list Tx.t) (e : Exn) s' :
  Party.state (party s) = prepared ->
  Party.transactions (party s) = Some txs ->
  signSwap env musig dataCommitments dataShares s = (Throw e, s') ->
  Party.state (party s') = prepared
  /\ world s' = world s
  /\ Party.swapData (party s') = Party.swapData (party s)
  /\ exists txs', Party.transactions (party s') = Some txs' /\ length txs' = length txs.
Proof.
  intros Hstate Htxs H. unfold signSwap in H.
  assert (Hframe : forall s0, signer_frame s s0 ->
            Party.state (party s0) = prepared /\ world s0 = world s
            /\ Party.swapData (party s0) = Party.swapData (party s)
            /\ exists txs', Party.transactions (party s0) = Some txs'
                            /\ length txs' = length txs).
  { intros s0 Hf. apply signer_frame_fields in Hf as (Hw & Hst & Hsd & Htx & _).
    split; [congruence|]. split; [exact Hw|]. split; [exact Hsd|].
    exists txs. split; [congruence|reflexivity]. }
  assert (Hclose : forall s0 s1, signer_frame s s0 -> signer_frame s0 s1 ->
            Party.state (party s1) = prepared /\ world s1 = world s
            /\ Party.swapData (party s1) = Party.swapData (party s)
            /\ exists txs', Party.transactions (party s1) = Some txs'
                            /\ length txs' = length txs).
  { intros s0 s1 H0 H1. eapply Hframe, signer_frame_trans; eassumption. }
  throw_step H idtac. destruct (bool_decide _).
  { injection H as _ <-. apply Hframe, signer_frame_refl. }
  do 5 (throw_step H
          ltac:(first [ apply Hframe; split; reflexivity
                      | match goal with
                        | Hx : signer_frame _ _ |- _ =>
                            eapply Hclose; [|exact Hx]; split; reflexivity
                        end ])).
  match goal with
  | Hx : Party.transactions (Party.set_signer _ _) = Some _ |- _ =>
      cbn in Hx; rewrite Htxs in Hx; injection Hx as <-
  end.
  apply bind_Throw in H as [Hloop | (sh & s1 & Hloop & H)].
  - apply (signEach_any _ _ _ _ _ _ _ _ txs) in Hloop; [|exact Htxs].
    cbn in Hloop. destruct Hloop as (Hw & Hst & Hsd & l' & Hl' & Hlen).
    split; [congruence|]. split; [exact Hw|]. split; [exact Hsd|]. eauto.
  - throw_step H idtac. discriminate H.
Qed.

(** *** [depositFunds], [finalizeSwap], [cancelSwap] *)

(** X9. In state Signed, [depositFunds] deposits [sell.amount] of the
    sell token with the given deposit type and approval flag; when the
    deposit goes through the state becomes Deposited and its hash is
    returned, and when it throws the error is passed on and the party
    stays Signed. *)
Theorem depositFunds_outcome s (swapData : SwapData.t) (depositType : Layer)
    (autoApprove : bool) :
  Party.state (party s) = signed ->
  Party.swapData (party s) = Some swapData ->
  match deposit base (Asset.token (SwapData.sell swapData))
          (Asset.amount (SwapData.sell swapData)) depositType autoApprove (world s) with
  | (Ok hash, w1) =>
      depositFunds base depositType autoApprove s
      = (Ok hash, mkSt (Party.set_state deposited (party s)) w1)
  | (Throw e, w1) =>
      depositFunds base depositType autoApprove s = (Throw e, mkSt (party s) w1)
  end.
Proof.
  intros Hstate Hdata.
  unfold depositFunds, bind, getP, gets, getObj, liftW, setP, modify, ret. cbn.
  rewrite Hstate, guard_passes, Hdata. cbn.
  destruct (deposit base _ _ depositType autoApprove (world s)) as [[hash|e] w1];
    reflexivity.
Qed.

(** X10. [finalizeSwap] queries the escrow account before it looks at
    the state. Once the query is answered, it refuses with its no-funds
    error when the state is not Deposited, and also when the state is
    Deposited and the reported balances have an entry for the buy token
    that is less than [buy.amount]. When the state is Deposited and the
    balances have no entry for the buy token, it is the comparison that
    throws, with the error of the number conversion and not the
    no-funds error. In all three cases nothing is submitted and the
    party is unchanged. *)
Theorem finalizeSwap_refuses s (swapData : SwapData.t) (address : Address)
    (swapAccount : AccountState.t) (w1 : W) :
  Party.swapData (party s) = Some swapData ->
  swapAddress base (party s) = Ok address ->
  getState env (Some address) (world s) = (Ok swapAccount, w1) ->
  (Party.state (party s) <> deposited ->
     finalizeSwap env base s
     = (Throw (Error "No funds on the swap account - nothing to finalize"),
        mkSt (party s) w1))
  /\ (Party.state (party s) = deposited ->
      forall balance,
        AccountState.committed_balances swapAccount !! Asset.token (SwapData.buy swapData)
          = Some balance ->
        balance < Asset.amount (SwapData.buy swapData) ->
        finalizeSwap env base s
        = (Throw (Error "No funds on the swap account - nothing to finalize"),
           mkSt (party s) w1))
  /\ (Party.state (party s) = deposited ->
      AccountState.committed_balances swapAccount !! Asset.token (SwapData.buy swapData)
        = None ->
      finalizeSwap env base s
      = (Throw (Error "invalid BigNumber value"), mkSt (party s) w1)).
Proof.
  intros Hdata Haddr Hacc.
  unfold finalizeSwap, bind, getP, gets, getObj, liftR, liftW, ret, throw. cbn.
  rewrite Haddr. cbn. rewrite Hacc. cbn. rewrite Hdata. cbn.
  split; [|split].
  - intros Hst. rewrite (bool_decide_eq_true_2 _ Hst). reflexivity.
  - intros Hst balance Hbal Hlt. rewrite Hst, guard_passes. cbn. rewrite Hbal. cbn.
    apply Z.ltb_lt in Hlt. rewrite Hlt. reflexivity.
  - intros Hst Hbal. rewrite Hst, guard_passes. cbn. rewrite Hbal. reflexivity.
Qed.

(** X11. In state Deposited with enough of the buy token in the escrow
    account, [finalizeSwap] becomes Finalized exactly when both
    submissions go through. When the submission of transaction 0 throws,
    transaction 1 is not submitted; when that of transaction 1 throws,
    transaction 0 has been submitted already; in both cases the error is
    passed on and the party stays Deposited. *)
Theorem finalizeSwap_outcome s (swapData : SwapData.t) (txs : list Tx.t)
    (address : Address) (swapAccount : AccountState.t) (balance : Z) (w1 : W) :
  Party.state (party s) = deposited ->
  Party.swapData (party s) = Some swapData ->
  Party.transactions (party s) = Some txs ->
  swapAddress base (party s) = Ok address ->
  getState env (Some address) (world s) = (Ok swapAccount, w1) ->
  AccountState.committed_balances swapAccount !! Asset.token (SwapData.buy swapData)
    = Some balance ->
  Asset.amount (SwapData.buy swapData) <= balance ->
  match sendBatch base [txs !! 0%nat] (Asset.token (SwapData.sell swapData)) w1 with
  | (Throw e, w2) => finalizeSwap env base s = (Throw e, mkSt (party s) w2)
  | (Ok _, w2) =>
      match sendBatch base [txs !! 1%nat] (Asset.token (SwapData.sell swapData)) w2 with
      | (Throw e, w3) => finalizeSwap env base s = (Throw e, mkSt (party s) w3)
      | (Ok hashes, w3) =>
          finalizeSwap env base s
          = (Ok hashes, mkSt (Party.set_state finalized (party s)) w3)
      end
  end.
Proof.
  intros Hstate Hdata Htxs Haddr Hacc Hbal Henough.
  unfold finalizeSwap, bind, getP, gets, getObj, liftR, liftW, setP, modify, ret, throw.
  cbn. rewrite Haddr. cbn. rewrite Hacc. cbn. rewrite Hdata. cbn.
  rewrite Hstate, guard_passes. cbn. rewrite Hbal. cbn.
  apply Z.ltb_ge in Henough. rewrite Henough. cbn. rewrite Htxs. cbn.
  destruct (sendBatch base [txs !! 0%nat] _ w1) as [[h0|e] w2]; [|reflexivity]. cbn.
  destruct (sendBatch base [txs !! 1%nat] _ w2) as [[h1|e] w3]; reflexivity.
Qed.

(** X12. At or after the timeout, [cancelSwap] throws its nothing-to-
    cancel error in every state but Deposited, changing nothing. In
    state Deposited it ends in state Finalized exactly when both
    submissions go through, and then returns the hashes of the second:
    when the submission of transaction 0 throws, the refund 3 is not
    submitted; when that of the refund throws, transaction 0 has been
    submitted already; in both cases the error is passed on and the
    party stays Deposited. *)
Theorem cancelSwap_outcome s (swapData : SwapData.t) :
  Party.swapData (party s) = Some swapData ->
  SwapData.timeout swapData * 1000 <= now env (world s) ->
  (Party.state (party s) <> deposited ->
     cancelSwap env base s
     = (Throw (Error "No funds on the swap account - nothing to cancel"), s))
  /\ (Party.state (party s) = deposited ->
      forall txs, Party.transactions (party s) = Some txs ->
        (forall e w2,
           sendBatch base [txs !! 0%nat] (Asset.token (SwapData.sell swapData)) (world s)
             = (Throw e, w2) ->
           cancelSwap env base s = (Throw e, mkSt (party s) w2))
        /\ (forall hashes0 w2 e w3,
              sendBatch base [txs !! 0%nat] (Asset.token (SwapData.sell swapData)) (world s)
                = (Ok hashes0, w2) ->
              sendBatch base [txs !! 3%nat] (Asset.token (SwapData.sell swapData)) w2
                = (Throw e, w3) ->
              cancelSwap env base s = (Throw e, mkSt (party s) w3))
        /\ (forall hashes0 w2 hashes3 w3,
              sendBatch base [txs !! 0%nat] (Asset.token (SwapData.sell swapData)) (world s)
                = (Ok hashes0, w2) ->
              sendBatch base [txs !! 3%nat] (Asset.token (SwapData.sell swapData)) w2
                = (Ok hashes3, w3) ->
              exists s',
                cancelSwap env base s = (Ok hashes3, s')
                /\ Party.state (party s') = finalized
                /\ world s' = w3
                /\ Party.swapData (party s') = Some swapData
                /\ Party.transactions (party s') = Some txs)).
Proof.
  intros Hdata Hlate. apply Z.ltb_ge in Hlate. split.
  - intros Hst.
    unfold cancelSwap, bind, getP, gets, getObj, liftW, throw. cbn.
    rewrite Hdata, Hlate. cbn. rewrite (bool_decide_eq_true_2 _ Hst), state_eta.
    reflexivity.
  - intros Hst txs Htxs.
    unfold cancelSwap, bind, getP, gets, getObj, liftW, setP, modify, ret, throw. cbn.
    rewrite Hdata, Hlate. cbn. rewrite Hst, guard_passes. cbn. rewrite Htxs. cbn.
    split; [|split].
    + intros e w2 H0. rewrite H0. reflexivity.
    + intros h0 w2 e w3 H0 H3. rewrite H0. cbn. rewrite H3. reflexivity.
    + intros h0 w2 h3 w3 H0 H3. rewrite H0. cbn. rewrite H3. cbn.
      eexists. split; [reflexivity|]. cbn. auto.
Qed.

(** X13. Finalized is terminal for the client: in that state
    [signedTransactions], [finalizeSwap] and [cancelSwap] throw as well,
    whatever the ledger answers and whatever the time, and leave the
    party as it is; nothing is submitted. *)
Theorem finalized_is_terminal s :
  Party.state (party s) = finalized ->
  signedTransactions s = (Throw (Error "Transactions are not signed yet"), s)
  /\ (exists e w, finalizeSwap env base s = (Throw e, mkSt (party s) w)
        /\ (w = world s \/ exists address r, getState env (Some address) (world s) = (r, w)))
  /\ (exists e, cancelSwap env base s = (Throw e, s)).
Proof.
  intros Hstate. split; [|split].
  - unfold signedTransactions, bind, getP, gets, throw. cbn. rewrite Hstate. reflexivity.
  - unfold finalizeSwap, bind, getP, gets, getObj, liftR, liftW, ret, throw. cbn.
    destruct (swapAddress base (party s)) as [address|e]; cbn.
    2:{ exists e, (world s). rewrite state_eta. split; [reflexivity|left; reflexivity]. }
    destruct (getState env (Some address) (world s)) as [[acc|e] w1] eqn:Hacc; cbn.
    2:{ exists e, w1. split; [reflexivity|right; eauto]. }
    destruct (Party.swapData (party s)) as [sd|]; cbn.
    2:{ exists TypeError, w1. split; [reflexivity|right; eauto]. }
    rewrite Hstate. cbn. eexists _, w1. split; [reflexivity|right; eauto].
  - unfold cancelSwap, bind, getP, gets, getObj, liftW, throw. cbn.
    destruct (Party.swapData (party s)) as [sd|]; cbn.
    2:{ exists TypeError. rewrite state_eta. reflexivity. }
    destruct (now env (world s) <? SwapData.timeout sd * 1000); cbn.
    + eexists. rewrite state_eta. reflexivity.
    + rewrite Hstate. cbn. eexists. rewrite state_eta. reflexivity.
Qed.

(** *** [wait] *)


(** *** [loadSwap] *)

(** X15. A [loadSwap] that throws after its state check (an empty plan,
    an unanswered query, no balance to compare with) leaves the state
    Empty, so that it can be called again, but has already stored the
    terms and the plan it was given. *)
Theorem loadSwap_failure_keeps_empty s (swapData : SwapData.t)
    (signedTxs : list Tx.t) (e : Exn) s' :
  Party.state (party s) = empty ->
  loadSwap env swapData signedTxs s = (Throw e, s') ->
  Party.state (party s') = empty
  /\ Party.swapData (party s') = Some swapData
  /\ Party.transactions (party s') = Some signedTxs.
Proof.
  intros Hstate.
  unfold loadSwap, bind, getP, gets, setP, modify, liftR, liftW, throw. cbn.
  rewrite Hstate, guard_passes. cbn.
  destruct (signedTxs !! 0%nat) as [tx0|]; cbn.
  2:{ intros [= _ <-]. cbn. rewrite Hstate. repeat split. }
  destruct (getState env (Tx.account tx0) (world s)) as [[acc|e'] w1]; cbn.
  2:{ intros [= _ <-]. cbn. rewrite Hstate. repeat split. }
  destruct (BigNumber_gt _ _) as [greater|e']; cbn.
  - discriminate.
  - intros [= _ <-]. cbn. rewrite Hstate. repeat split.
Qed.

(** X16. Round trip of a saved session: whenever [loadSwap] returns, the
    party is Signed or Deposited, and [signedTransactions] then returns
    exactly the plan that was loaded, changing nothing. *)
Theorem loadSwap_then_signedTransactions s (swapData : SwapData.t)
    (signedTxs : list Tx.t) s' :
  loadSwap env swapData signedTxs s = (Ok tt, s') ->
  (Party.state (party s') = signed \/ Party.state (party s') = deposited)
  /\ Party.swapData (party s') = Some swapData
  /\ signedTransactions s' = (Ok (Some signedTxs), s').
Proof.
  unfold loadSwap, bind, getP, gets, setP, modify, liftR, liftW, throw. cbn.
  destruct (bool_decide (Party.state (party s) <> empty)); [discriminate|].
  cbn. destruct (signedTxs !! 0%nat) as [tx0|]; cbn; [|discriminate].
  destruct (getState env (Tx.account tx0) (world s)) as [[acc|e'] w1]; cbn; [|discriminate].
  destruct (BigNumber_gt _ _) as [greater|e']; cbn; [|discriminate].
  intros [= <-]. cbn. destruct greater; cbn.
  - split; [left; reflexivity|]. split; reflexivity.
  - split; [right; reflexivity|]. split; reflexivity.
Qed.

(** *** [prepareSwap] *)

(** X17. A [prepareSwap] that throws in state Empty (the signer, the
    address derivation, a ledger query, the zero transfer or the plan
    builder failed) leaves the state Empty and the stored plan as it
    was, but has already stored the new terms. *)
Theorem prepareSwap_failure_keeps_empty (data : SwapData.t) (providerPubkey : string)
    (providerAddress : Address) (providerPrecommitments : list Bytes)
    s (e : Exn) s' :
  Party.state (party s) = empty ->
  prepareSwap env musig data providerPubkey providerAddress providerPrecommitments s
    = (Throw e, s') ->
  Party.state (party s') = empty
  /\ Party.swapData (party s') = Some data
  /\ Party.transactions (party s') = Party.transactions (party s).
Proof.
  intros Hstate H. unfold prepareSwap in H.
  throw_step H idtac. rewrite Hstate, guard_passes in H.
  pose proof (fun s0 s1 (Hst : Party.state (party s0) = empty)
                (Hsd : Party.swapData (party s0) = Some data)
                (Htx : Party.transactions (party s0) = Party.transactions (party s))
                (Hf : signer_frame s0 s1) =>
                match signer_frame_fields s0 s1 Hf with
                | conj _ (conj Hst' (conj Hsd' (conj Htx' _))) =>
                    conj (eq_trans Hst' Hst)
                      (conj (eq_trans Hsd' Hsd) (eq_trans Htx' Htx))
                end) as Hclose.
  do 13 (throw_step H
           ltac:(first [ solve [cbn; repeat split; first [assumption | reflexivity]]
                       | match goal with
                         | Hx : signer_frame _ _ |- _ =>
                             eapply Hclose; [| | |exact Hx]; cbn;
                             first [assumption | reflexivity]
                         end ])).
  apply bind_Throw in H as [Hcreate | ([] & s1 & Hcreate & H)].
  - match type of Hcreate with
    | context [id_not_set ?i] => destruct (id_not_set i)
    end; [|discriminate].
    throw_step Hcreate ltac:(cbn; repeat split; first [assumption | reflexivity]).
    apply liftW_Throw in Hcreate as (? & _ & ->). cbn.
    repeat split; first [assumption | reflexivity].
  - match type of Hcreate with
    | _ ?s0 = _ => assert (Hs1 : exists w, s1 = mkSt (party s0) w)
    end.
    { match type of Hcreate with
      | context [id_not_set ?i] => destruct (id_not_set i)
      end.
      - ok_step Hcreate. apply liftW_Ok in Hcreate as (? & _ & ->). eauto.
      - injection Hcreate as <-. eexists. symmetry. apply state_eta. }
    destruct Hs1 as [w ->].
    do 4 (throw_step H ltac:(cbn; repeat split; first [assumption | reflexivity])).
    discriminate H.
Qed.

(** X18. Whenever [prepareSwap] returns, the party is Prepared with the
    terms it was given; the commitments it returns are the ones it has
    stored for the next round; and the plan it has stored has exactly 5
    transactions, none of them signed, whose key registration names the
    hash of the aggregate public key that the party has stored. *)
Theorem prepareSwap_stores_round_one (data : SwapData.t) (providerPubkey : string)
    (providerAddress : Address) (providerPrecommitments : list Bytes)
    s (precommitments commitments : list Bytes) s' :
  prepareSwap env musig data providerPubkey providerAddress providerPrecommitments s
    = (Ok (precommitments, commitments), s') ->
  Party.state (party s') = prepared
  /\ Party.swapData (party s') = Some data
  /\ Party.commitments (party s') = Some commitments
  /\ exists pkh plan,
       Party.pubKeyHash (party s') = Some pkh
       /\ Party.transactions (party s') = Some plan
       /\ length plan = 5%nat
       /\ Forall (fun tx => Tx.signature tx = None) plan
       /\ plan !! 0%nat ≫= Tx.newPkHash = Some ("sync:" ++ slice2 (hexlify env pkh)).
Proof.
  intros H. unfold prepareSwap in H.
  ok_step H. destruct (bool_decide _); [discriminate|].
  do 13 ok_step H.
  apply bind_Ok in H as ([] & s1 & Hcreate & H).
  match type of Hcreate with
  | _ ?s0 = _ => assert (Hs1 : exists w, s1 = mkSt (party s0) w)
  end.
  { match type of Hcreate with
    | context [id_not_set ?i] => destruct (id_not_set i)
    end.
    - ok_step Hcreate. apply liftW_Ok in Hcreate as (? & _ & ->). eauto.
    - injection Hcreate as <-. eexists. symmetry. apply state_eta. }
  destruct Hs1 as [w ->].
  do 4 ok_step H. injection H as <- <- <-. cbn.
  match goal with
  | Hx : getTransactions _ _ _ _ _ _ _ = _ |- _ =>
      apply getTransactions_shape in Hx
        as (f1 & f2 & f3 & f4 & acc & id & b & sl & _ & _ & _ & _ & ->)
  end.
  split; [reflexivity|]. split; [reflexivity|]. split; [reflexivity|].
  eexists _, _. split; [reflexivity|]. split; [reflexivity|].
  split; [reflexivity|]. split; [|reflexivity].
  destruct (SwapData.withdrawType data) as [[]|]; repeat constructor.
Qed.
End machine_extras.

(** ** [getSyncKeys] *)








(** X19. A wallet without a provider and a wallet connected to chain 1
    derive the same keys: [getSyncKeys] makes no network query for the
    first, and for both signs the fixed text without a chain line. *)
Theorem getSyncKeys_default_chain {W : Type} (kenv : KeyEnv W) (key : string) (w : W) :
  getNetwork kenv w = (Ok 1, w) ->
  getSyncKeys kenv {| EthWallet.privateKey := key; EthWallet.connected := true |} w
  = getSyncKeys kenv {| EthWallet.privateKey := key; EthWallet.connected := false |} w.
Proof.
  intros Hnet. unfold getSyncKeys, bind at 1 6. cbn. rewrite Hnet. reflexivity.
Qed.

(** ** Sessions end to end *)

Section session_extras.
Context {W Sg : Type} (env : Env W) (base : Base W Sg) (musig : Musig Sg).
Implicit Types (s : St W Sg).

Ltac run_step H :=
  let Hc := fresh "Hc" in
  apply bind_Ok in H as (? & ? & Hc & H);
  first
    [ apply setP_Ok in Hc as ->
    | apply getP_Ok in Hc as (-> & ->)
    | apply getObj_Ok in Hc as (Hc & ->)
    | apply withSigner_Ok in Hc as (? & ? & ? & Hc & ->)
    | apply liftW_Ok in Hc as (? & Hc & ->)
    | apply liftR_Ok in Hc as (Hc & ->) ];
  cbv beta in H; cbn [party world] in *.

(** The plan that a [prepareSwap] that went through has stored. *)
Lemma prepareSwap_plan (data : SwapData.t) (providerPubkey : string)
    (providerAddress : Address) (providerPrecommitments : list Bytes)
    s (r : list Bytes * list Bytes) s' :
  prepareSwap env musig data providerPubkey providerAddress providerPrecommitments s
    = (Ok r, s') ->
  Party.state (party s') = prepared
  /\ exists plan, Party.transactions (party s') = Some plan /\ length plan = 5%nat.
Proof.
  intros H. unfold prepareSwap in H.
  run_step H. destruct (bool_decide _); [discriminate|].
  do 13 run_step H.
  apply bind_Ok in H as ([] & s1 & Hcreate & H).
  match type of Hcreate with
  | _ ?s0 = _ => assert (Hs1 : exists w, s1 = mkSt (party s0) w)
  end.
  { match type of Hcreate with
    | context [id_not_set ?i] => destruct (id_not_set i)
    end.
    - run_step Hcreate. apply liftW_Ok in Hcreate as (? & _ & ->). eauto.
    - injection Hcreate as <-. eexists. symmetry. apply state_eta. }
  destruct Hs1 as [w ->].
  do 4 run_step H. injection H as <- <-. cbn.
  match goal with
  | Hx : getTransactions _ _ _ _ _ _ _ = _ |- _ =>
      apply getTransactions_shape in Hx
        as (f1 & f2 & f3 & f4 & acc & id & b & sl & _ & _ & _ & _ & ->)
  end.
  split; [reflexivity|]. eexists. split; reflexivity.
Qed.

(** What a [signSwap] that went through leaves: as many shares as
    transactions, and a signature on each transaction. *)
Lemma signSwap_all_signed (dataCommitments dataShares : list Bytes)
    s (txs : list Tx.t) (shares : list Bytes) s' :
  Party.transactions (party s) = Some txs ->
  signSwap env musig dataCommitments dataShares s = (Ok shares, s') ->
  Party.state (party s') = signed
  /\ length shares = length txs
  /\ exists txs',
       Party.transactions (party s') = Some txs'
       /\ length txs' = length txs
       /\ Forall (fun tx => is_Some (Tx.signature tx)) txs'.
Proof.
  intros Htxs H. unfold signSwap in H.
  run_step H. destruct (bool_decide _); [discriminate|].
  do 5 run_step H.
  apply bind_Ok in H as (sh & s1 & Hloop & H).
  run_step H. injection H as <- <-. cbn.
  match goal with
  | Hx : Party.transactions (Party.set_signer _ _) = Some _ |- _ =>
      cbn in Hx; rewrite Htxs in Hx; injection Hx as <-
  end.
  pose proof (signEach_shares _ _ _ _ _ _ _ _ _ _ Hloop) as Hshares.
  apply (signEach_ok env musig _ _ _ _ _ _ _ _ txs) in Hloop; [|exact Htxs].
  cbn in Hloop. destruct Hloop as (_ & _ & _ & l' & Hl' & Hlen & _ & Hin).
  split; [reflexivity|]. split; [exact Hshares|].
  exists l'. split; [exact Hl'|]. split; [exact Hlen|].
  apply Forall_lookup. intros j tx' Hj.
  destruct (lookup_lt_is_Some_2 txs j) as [t Ht].
  { rewrite <- Hlen. eapply lookup_lt_Some, Hj. }
  destruct (Hin j t Ht) as (signature & Hf & _); [eapply lookup_lt_Some, Ht|].
  rewrite Hj in Hf. injection Hf as ->. cbn. eauto.
Qed.

(** X22. The two rounds compose: whenever [prepareSwap] and then
    [signSwap] both return, the client is Signed, has returned exactly 5
    signature shares and holds a plan of exactly 5 transactions, each
    with a signature attached. *)
Theorem prepare_then_sign (data : SwapData.t) (providerPubkey : string)
    (providerAddress : Address) (providerPrecommitments : list Bytes)
    (dataCommitments dataShares : list Bytes)
    s (r : list Bytes * list Bytes) s1 (shares : list Bytes) s2 :
  prepareSwap env musig data providerPubkey providerAddress providerPrecommitments s
    = (Ok r, s1) ->
  signSwap env musig dataCommitments dataShares s1 = (Ok shares, s2) ->
  Party.state (party s2) = signed
  /\ length shares = 5%nat
  /\ exists txs,
       Party.transactions (party s2) = Some txs
       /\ length txs = 5%nat
       /\ Forall (fun tx => is_Some (Tx.signature tx)) txs.
Proof.
  intros Hprepare Hsign.
  apply prepareSwap_plan in Hprepare as (_ & plan & Hplan & Hfive).
  apply (signSwap_all_signed _ _ _ plan) in Hsign as (Hst & Hsh & txs & Htxs & Hlen & Hall);
    [|exact Hplan].
  split; [exact Hst|]. split; [congruence|].
  exists txs. split; [exact Htxs|]. split; [congruence|exact Hall].
Qed.

End session_extras.

(** ** The further properties on the test double *)

Lemma transpose_shape_witness :
  transpose ([] : list (list Z)) = Throw TypeError
  /\ entry [[Some 1; Some 3; Some 4]; [Some 2; None; Some 5]] 1 1 = Some None.
Proof.
  destruct (transpose_shape [1; 2] [[3]; [4; 5; 6]]) as (Hempty & t & Ht & _ & _ & Hentry).
  split; [exact Hempty|].
  injection Ht as <-. apply (Hentry 1%nat 1%nat); cbn; lia.
Defined.

Lemma same_nonce_pairs_exclusive_witness :
  ~ (1%nat ∈ Ledger.accepted Mock.ledger /\ 3%nat ∈ Ledger.accepted Mock.ledger)
  /\ ~ (2%nat ∈ Ledger.accepted Mock.ledger /\ 4%nat ∈ Ledger.accepted Mock.ledger).
Proof.
  apply (same_nonce_pairs_exclusive Mock.env Mock.swapData "0xc11e" "0x9707" Mock.escrow
           [Byte.x2a] (Mock.world_at 1700000000000 None None Null)
           (Mock.world_at 1700000000000 None None Null) Mock.plan Mock.permissive Mock.ledger).
  - reflexivity.
  - unfold Ledger.reachable, Mock.ledger.
    eapply rtc_l; [apply Ledger.step_submit with (i := 1%nat) (time := 1700000100)|].
    eapply rtc_l; [apply Ledger.step_submit with (i := 3%nat) (time := 1700000700)|].
    eapply rtc_l; [apply Ledger.step_submit with (i := 2%nat) (time := 1700000800)|].
    eapply rtc_l; [apply Ledger.step_submit with (i := 4%nat) (time := 1700000900)|].
    apply rtc_refl.
Defined.

Lemma submissions_refused_by_window_witness :
  Ledger.submit Mock.permissive Mock.plan Ledger.init 3 1700000600 = Ledger.init
  /\ Ledger.submit Mock.permissive Mock.plan Ledger.init 4 1700000600 = Ledger.init.
Proof.
  apply (submissions_refused_by_window Mock.env Mock.swapData "0xc11e" "0x9707" Mock.escrow
           [Byte.x2a] (Mock.world_at 1700000000000 None None Null)
           (Mock.world_at 1700000000000 None None Null) Mock.plan Mock.permissive
           Ledger.init 1700000600).
  - reflexivity.
  - cbn. lia.
Defined.

(** One second later the refund is accepted. *)
Example refund_accepted_after_timeout :
  Ledger.accepted (Ledger.submit Mock.permissive Mock.plan Ledger.init 3 1700000601)
  = [3%nat].
Proof. vm_compute. reflexivity. Qed.

Lemma getTransactions_account_not_set_witness :
  getTransactions Mock.env Mock.swapData "0xc11e" "0x9707" Mock.escrow [Byte.x2a]
    Mock.fresh_world
  = (Throw (Error "Swap Account ID not set - can't sign transactions"), Mock.fresh_world).
Proof.
  apply (getTransactions_account_not_set Mock.env Mock.swapData "0xc11e" "0x9707"
           Mock.escrow [Byte.x2a] Mock.fresh_world Mock.fresh_world Mock.fresh_world
           Mock.fresh_world Mock.fresh_world Mock.fresh_world 10 10 20 30
           {| AccountState.address := Mock.escrow; AccountState.id := None;
              AccountState.committed_balances := ∅ |});
    first [reflexivity | left; reflexivity].
Defined.

Lemma getTransactions_plan_invariants_witness :
  length Mock.plan = 5%nat
  /\ Forall (fun tx => Tx.signature tx = None) Mock.plan.
Proof.
  destruct (getTransactions_plan_invariants Mock.env Mock.swapData "0xc11e" "0x9707"
              Mock.escrow [Byte.x2a] (Mock.world_at 1700000000000 None None Null)
              (Mock.world_at 1700000000000 None None Null) Mock.plan eq_refl)
    as (Hlen & _ & Hunsigned & _).
  split; assumption.
Defined.

Lemma getSignBytes_on_plan_witness :
  exists t0 t1 t2 t3 t4,
    Mock.plan = [t0; t1; t2; t3; t4]
    /\ getSignBytes Mock.env (Some t0) = Ok [Byte.x03; Byte.x00]
    /\ getSignBytes Mock.env (Some t2) = Ok [Byte.x01; Byte.x02].
Proof.
  destruct (getSignBytes_on_plan Mock.env Mock.swapData "0xc11e" "0x9707"
              Mock.escrow [Byte.x2a] (Mock.world_at 1700000000000 None None Null)
              (Mock.world_at 1700000000000 None None Null) Mock.plan eq_refl)
    as (t0 & t1 & t2 & t3 & t4 & Hplan & H0 & _ & H2 & _).
  exists t0, t1, t2, t3, t4. split; [exact Hplan|].
  injection Hplan as <- _ <- _ _. split; reflexivity.
Defined.

Lemma signSwap_signed_means_verified_witness :
  Party.state (party Mock.signedUp) = signed
  /\ length Mock.honestShares = length Mock.plan
  /\ Tx.signature <$> Party.transactions (party Mock.signedUp) ≫= (.!! 4%nat)
     = Some (Some {| TxSignature.pubKey := [Byte.x2a];
                     TxSignature.signature := [Byte.x01; Byte.x02; Byte.x01; Byte.x02] |}).
Proof.
  destruct (signSwap_signed_means_verified Mock.env Mock.musig Mock.providerCommitments
              Mock.honestShares Mock.prepared Mock.plan Mock.honestShares Mock.signedUp)
    as (Hstate & _ & _ & Hshares & _).
  - vm_compute. reflexivity.
  - vm_compute. reflexivity.
  - split; [exact Hstate|]. split; [exact Hshares|]. vm_compute. reflexivity.
Defined.

Lemma signSwap_failure_keeps_state_witness :
  Party.state (party Mock.rejected) = prepared
  /\ world Mock.rejected = world Mock.prepared
  /\ Party.swapData (party Mock.rejected) = Party.swapData (party Mock.prepared)
  /\ exists txs', Party.transactions (party Mock.rejected) = Some txs'
                  /\ length txs' = length Mock.plan.
Proof.
  apply (signSwap_failure_keeps_state Mock.env Mock.musig Mock.providerCommitments
           Mock.corruptedShares Mock.prepared Mock.plan
           (Error "Provided signature shares are invalid") Mock.rejected);
    vm_compute; reflexivity.
Defined.

Lemma depositFunds_outcome_witness :
  depositFunds Mock.base L2 true (Mock.late signed)
  = (Ok "0xdeposit", Mock.late deposited).
Proof.
  exact (depositFunds_outcome Mock.base (Mock.late signed) Mock.swapData L2 true
           eq_refl eq_refl).
Defined.

Lemma finalizeSwap_refuses_witness :
  finalizeSwap Mock.env Mock.base (Mock.late signed)
  = (Throw (Error "No funds on the swap account - nothing to finalize"), Mock.late signed)
  /\ finalizeSwap Mock.env Mock.base Mock.underfunded
     = (Throw (Error "No funds on the swap account - nothing to finalize"),
        Mock.underfunded)
  /\ finalizeSwap Mock.env Mock.base Mock.unmatched
     = (Throw (Error "invalid BigNumber value"), Mock.unmatched).
Proof.
  split; [|split].
  - destruct (finalizeSwap_refuses Mock.env Mock.base (Mock.late signed) Mock.swapData
                Mock.escrow
                {| AccountState.address := Mock.escrow; AccountState.id := Some 42;
                   AccountState.committed_balances :=
                     <["ETH" := 1000000000000000000]>
                       (<["DAI" := 2000000000000000000000]> ∅) |}
                (world (Mock.late signed)))
      as (Hwrong & _ & _); [reflexivity | reflexivity | vm_compute; reflexivity |].
    apply Hwrong. discriminate.
  - destruct (finalizeSwap_refuses Mock.env Mock.base Mock.underfunded Mock.swapData
                Mock.escrow
                {| AccountState.address := Mock.escrow; AccountState.id := Some 42;
                   AccountState.committed_balances :=
                     <["ETH" := 1000000000000000000]>
                       (<["DAI" := 999000000000000000000]> ∅) |}
                (world Mock.underfunded))
      as (_ & Hless & _); [reflexivity | reflexivity | vm_compute; reflexivity |].
    apply (Hless eq_refl 999000000000000000000); [vm_compute; reflexivity | cbn; lia].
  - destruct (finalizeSwap_refuses Mock.env Mock.base Mock.unmatched Mock.swapData
                Mock.escrow
                {| AccountState.address := Mock.escrow; AccountState.id := Some 42;
                   AccountState.committed_balances := <["ETH" := 1000000000000000000]> ∅ |}
                (world Mock.unmatched))
      as (_ & _ & Habsent); [reflexivity | reflexivity | vm_compute; reflexivity |].
    apply (Habsent eq_refl). vm_compute. reflexivity.
Defined.

Lemma finalizeSwap_outcome_witness :
  finalizeSwap Mock.env Mock.base (Mock.late deposited)
  = (Ok ["0xbatch"],
     mkSt (Mock.party_in finalized)
       (Mock.log [Mock.plan !! 1%nat] "ETH"
          (Mock.log [Mock.plan !! 0%nat] "ETH" (world (Mock.late deposited))))).
Proof.
  pose proof (finalizeSwap_outcome Mock.env Mock.base (Mock.late deposited) Mock.swapData
                Mock.plan Mock.escrow
                {| AccountState.address := Mock.escrow; AccountState.id := Some 42;
                   AccountState.committed_balances :=
                     <["ETH" := 1000000000000000000]>
                       (<["DAI" := 2000000000000000000000]> ∅) |}
                2000000000000000000000 (world (Mock.late deposited))
                eq_refl eq_refl eq_refl eq_refl) as H.
  apply H; vm_compute; try reflexivity. discriminate.
Defined.

Lemma cancelSwap_outcome_witness :
  cancelSwap Mock.env Mock.base (Mock.late signed)
  = (Throw (Error "No funds on the swap account - nothing to cancel"), Mock.late signed)
  /\ (exists s',
        cancelSwap Mock.env Mock.base (Mock.late deposited) = (Ok ["0xbatch"], s')
        /\ Party.state (party s') = finalized
        /\ world s'
           = Mock.log [Mock.plan !! 3%nat] "ETH"
               (Mock.log [Mock.plan !! 0%nat] "ETH" (world (Mock.late deposited)))).
Proof.
  split.
  - destruct (cancelSwap_outcome Mock.env Mock.base (Mock.late signed) Mock.swapData)
      as [Hwrong _]; [reflexivity | vm_compute; discriminate |].
    apply Hwrong. discriminate.
  - destruct (cancelSwap_outcome Mock.env Mock.base (Mock.late deposited) Mock.swapData)
      as [_ Hrun]; [reflexivity | vm_compute; discriminate |].
    destruct (Hrun eq_refl Mock.plan eq_refl) as (_ & _ & Hboth).
    destruct (Hboth ["0xbatch"]
                (Mock.log [Mock.plan !! 0%nat] "ETH" (world (Mock.late deposited)))
                ["0xbatch"]
                (Mock.log [Mock.plan !! 3%nat] "ETH"
                   (Mock.log [Mock.plan !! 0%nat] "ETH" (world (Mock.late deposited)))))
      as (s' & Hcancel & Hstate & Hworld & _); [vm_compute; reflexivity ..|].
    exists s'. auto.
Defined.

Lemma finalized_is_terminal_witness :
  signedTransactions Mock.finished
    = (Throw (Error "Transactions are not signed yet"), Mock.finished)
  /\ (exists e, cancelSwap Mock.env Mock.base Mock.finished = (Throw e, Mock.finished)).
Proof.
  destruct (finalized_is_terminal Mock.env Mock.base Mock.finished eq_refl)
    as (Hsigned & _ & Hcancel).
  split; assumption.
Defined.


Lemma loadSwap_failure_keeps_empty_witness :
  Party.state (party (snd (loadSwap Mock.env Mock.swapData [] Mock.crashed))) = empty
  /\ Party.swapData (party (snd (loadSwap Mock.env Mock.swapData [] Mock.crashed)))
     = Some Mock.swapData
  /\ Party.transactions (party (snd (loadSwap Mock.env Mock.swapData [] Mock.crashed)))
     = Some [].
Proof.
  apply (loadSwap_failure_keeps_empty Mock.env Mock.crashed Mock.swapData [] TypeError).
  - reflexivity.
  - vm_compute. reflexivity.
Defined.

Lemma loadSwap_then_signedTransactions_witness :
  (Party.state (party Mock.restored) = signed \/ Party.state (party Mock.restored) = deposited)
  /\ Party.swapData (party Mock.restored) = Some Mock.swapData
  /\ signedTransactions Mock.restored = (Ok (Some Mock.plan), Mock.restored).
Proof.
  apply (loadSwap_then_signedTransactions Mock.env Mock.crashed_late Mock.swapData
           Mock.plan Mock.restored).
  vm_compute. reflexivity.
Defined.

Lemma prepareSwap_failure_keeps_empty_witness :
  fst (prepareSwap Mock.env Mock.musig Mock.unlisted "0x9b" "0x9707"
         Mock.providerPrecommitments Mock.crashed) = Throw (Error "unknown token")
  /\ Party.state (party (snd (prepareSwap Mock.env Mock.musig Mock.unlisted "0x9b" "0x9707"
                                Mock.providerPrecommitments Mock.crashed))) = empty
  /\ Party.swapData (party (snd (prepareSwap Mock.env Mock.musig Mock.unlisted "0x9b"
                                   "0x9707" Mock.providerPrecommitments Mock.crashed)))
     = Some Mock.unlisted.
Proof.
  split; [vm_compute; reflexivity|].
  destruct (prepareSwap_failure_keeps_empty Mock.env Mock.musig Mock.unlisted "0x9b"
              "0x9707" Mock.providerPrecommitments Mock.crashed (Error "unknown token")
              (snd (prepareSwap Mock.env Mock.musig Mock.unlisted "0x9b" "0x9707"
                      Mock.providerPrecommitments Mock.crashed)))
    as (Hstate & Hdata & _).
  - reflexivity.
  - vm_compute. reflexivity.
  - split; assumption.
Defined.

Lemma prepareSwap_stores_round_one_witness :
  Party.state (party Mock.prepared) = prepared
  /\ Party.swapData (party Mock.prepared) = Some Mock.swapData
  /\ Party.commitments (party Mock.prepared)
     = Some [[Byte.x20]; [Byte.x21]; [Byte.x22]; [Byte.x23]; [Byte.x24]].
Proof.
  destruct (prepareSwap_stores_round_one Mock.env Mock.musig Mock.swapData "0x9b" "0x9707"
              Mock.providerPrecommitments
              (mkSt Mock.client (Mock.world_at 1700000000000 None None Null))
              [[Byte.x10]; [Byte.x11]; [Byte.x12]; [Byte.x13]; [Byte.x14]]
              [[Byte.x20]; [Byte.x21]; [Byte.x22]; [Byte.x23]; [Byte.x24]]
              Mock.prepared)
    as (Hstate & Hdata & Hcomm & _).
  - vm_compute. reflexivity.
  - split; [exact Hstate|]. split; assumption.
Defined.


(** From 1e21 on the chain line carries the exponent form. *)
Example accessMessage_exponent_form :
  accessMessage (exponential Mock.keyEnv) (10 ^ 21)
  = "Access zkSync account." ++ LF ++ LF ++ "Only sign this message for a trusted client!"
    ++ LF ++ "Chain ID: 1e+21.".
Proof. reflexivity. Qed.

Lemma getSyncKeys_default_chain_witness :
  getSyncKeys Mock.keyEnv {| EthWallet.privateKey := "0xc1"; EthWallet.connected := true |}
    Mock.fresh_world
  = getSyncKeys Mock.keyEnv {| EthWallet.privateKey := "0xc1"; EthWallet.connected := false |}
      Mock.fresh_world.
Proof.
  apply (getSyncKeys_default_chain Mock.keyEnv "0xc1" Mock.fresh_world). reflexivity.
Defined.

Lemma prepare_then_sign_witness :
  Party.state (party Mock.signedUp) = signed
  /\ length Mock.honestShares = 5%nat
  /\ exists txs,
       Party.transactions (party Mock.signedUp) = Some txs
       /\ length txs = 5%nat
       /\ Forall (fun tx => is_Some (Tx.signature tx)) txs.
Proof.
  apply (prepare_then_sign Mock.env Mock.musig Mock.swapData "0x9b" "0x9707"
           Mock.providerPrecommitments Mock.providerCommitments Mock.honestShares
           (mkSt Mock.client (Mock.world_at 1700000000000 None None Null))
           ([[Byte.x10]; [Byte.x11]; [Byte.x12]; [Byte.x13]; [Byte.x14]],
            [[Byte.x20]; [Byte.x21]; [Byte.x22]; [Byte.x23]; [Byte.x24]])
           Mock.prepared Mock.honestShares Mock.signedUp);
    vm_compute; reflexivity.
Defined.

